(** * Adaptive Universal Remote: firmware of the 20-button keypad

    A shallow embedding of [20_btn_ir_blaster_master.ino] and the properties
    of its control core: the key interpreter ([keyDown], [keyUp],
    [checkLongKeyPress]), the command dispatcher ([sendCmd], [OnDataSent]),
    the battery monitor ([checkBattery], [calcSaveAnalogOffset]) and the
    power manager ([startSleepTimer], [startDeepSleep], [setup], [loop]).

    The sketch keeps everything in global variables; here they are the fields
    of one record [state], threaded through every function.  What the sketch
    writes to the outside world (serial console, radio, PWM, haptic pin,
    EEPROM, sleep controller) is appended to the field [out], oldest first.
    What it reads from the outside world ([millis()], [analogRead],
    [digitalRead], the status of [esp_now_send]) is an argument of the
    function that reads it.

    Conventions.  Integers are [Z], wrapped to the width of the C type at
    every assignment and before every unsigned comparison.  One call of a
    handler reads the clock once, also where the sketch calls [millis()]
    twice.  Of the serial console the strings and numbers are recorded, not
    the line ends.  Calls that only configure a peripheral ([pinMode],
    [ledcSetup], [Serial.begin], [EEPROM.begin], [kpd.begin]) and the
    [delay] before deep sleep leave no trace.  The key handlers run from
    [kpd.scan()] in [loop], hence after [setup] has created the sleep
    timer. *)

From Stdlib Require Import String Ascii ZArith List Bool Lia.
Import ListNotations.
Local Open Scope Z_scope.

(** ** Machine integers of the ESP32 (ILP32) *)

Definition uint8 (z : Z) : Z := z mod 2 ^ 8.
Definition uint16 (z : Z) : Z := z mod 2 ^ 16.
Definition uint32 (z : Z) : Z := z mod 2 ^ 32.
Definition int32 (z : Z) : Z := (z + 2 ^ 31) mod 2 ^ 32 - 2 ^ 31.

(** ** Constants of the sketch *)

Definition IR_BLASTER_MAC : list Z := [255; 255; 255; 255; 255; 255].

Definition DEFAULT_SLEEP_TIMEOUT_S : Z := 60.
Definition LOWBAT_SLEEP_TIMEOUT_S : Z := 10.

Definition FN_KEY : Z := 20.
Definition PWR_KEY : Z := 5.
Definition FACTORY_RESET_HOLD_MS : Z := 8000.

Definition WAKE_PIN : Z := 4.
Definition RTC_COL_PINS : list Z := [14].

Definition DO_CALIBRATION_HOLD_MS : Z := 2000.
Definition HAPTIC_DUR_MS : Z := 200.

Definition BACKLIGHT_MAX_VAL : Z := 255.
Definition BACKLIGHT_BRIGHTNESS_STEP : Z := uint8 (BACKLIGHT_MAX_VAL / 5).

Definition VBAT_LOW : Z := 3680.
Definition VBAT_CRITICAL : Z := 3630.

Definition MAX_TX_RETRY : Z := 24.

(** ** Data *)

Inductive key_cmd := send_ir | learn_ir | f_reset.

Definition key_cmd_eqb (a b : key_cmd) : bool :=
  match a, b with
  | send_ir, send_ir | learn_ir, learn_ir | f_reset, f_reset => true
  | _, _ => false
  end.

(** The enumerators' values, which is what the [uint8_t cmd] field holds. *)
Definition key_cmd_code (c : key_cmd) : Z :=
  match c with send_ir => 0 | learn_ir => 1 | f_reset => 2 end.

Record cmd_data := { key : Z; cmd : key_cmd }.

Record eeprom_data := { broadcastAddress : list Z; analogOffset : Z }.

(** Hardware timer 0, the one [sleepTimer] points to once [startSleepTimer]
    has run: a counter of microseconds (80 MHz divided by 80) and its
    alarm. *)
Record hw_timer := { tcounter : Z; talarm : Z; talarm_enabled : bool }.

Inductive output :=
| SerialStr (text : string)      (* a string literal of the sketch *)
| SerialValue (text : string)    (* text computed at run time *)
| SerialNum (n : Z)
| SerialHex (n : Z)
| EspNowAddPeer (peer : list Z)
| EspNowSend (peer : list Z) (payload : cmd_data)
| LedcWrite (duty : Z)
| HapticWrite (high : bool)
| EepromPut (e : eeprom_data)
| Ext0Wakeup (pin : Z)
| RtcGpioHold (pin : Z) (hold : bool)
| DeepSleepStart.

Record state := {
  cmdData : cmd_data;
  bootCount : Z;
  edata : eeprom_data;
  pwr_key_is_down : bool;
  lastPwrKeyDown : Z;
  int_btn_is_down : bool;
  lastIntBtnDown : Z;
  hapticStopMils : Z;
  backlightBrightness : Z;
  backlightMilOld : Z;
  backlightPatCnt : Z;
  backlightPatDurMs : Z;
  backlightPatTimes : Z;
  lowBattery : bool;
  txRetryCount : Z;
  sleepTimer : hw_timer;
  (* not variables of the sketch: whether [esp_deep_sleep_start] was reached,
     and everything written to the outside world so far *)
  halted : bool;
  out : list output
}.

(** Assignment to one global. *)
Definition set_cmdData (v : cmd_data) (s : state) : state :=
  {| cmdData := v; bootCount := bootCount s; edata := edata s;
     pwr_key_is_down := pwr_key_is_down s;
     lastPwrKeyDown := lastPwrKeyDown s;
     int_btn_is_down := int_btn_is_down s;
     lastIntBtnDown := lastIntBtnDown s; hapticStopMils := hapticStopMils s;
     backlightBrightness := backlightBrightness s;
     backlightMilOld := backlightMilOld s;
     backlightPatCnt := backlightPatCnt s;
     backlightPatDurMs := backlightPatDurMs s;
     backlightPatTimes := backlightPatTimes s; lowBattery := lowBattery s;
     txRetryCount := txRetryCount s; sleepTimer := sleepTimer s;
     halted := halted s; out := out s |}.

Definition set_bootCount (v : Z) (s : state) : state :=
  {| cmdData := cmdData s; bootCount := v; edata := edata s;
     pwr_key_is_down := pwr_key_is_down s;
     lastPwrKeyDown := lastPwrKeyDown s;
     int_btn_is_down := int_btn_is_down s;
     lastIntBtnDown := lastIntBtnDown s; hapticStopMils := hapticStopMils s;
     backlightBrightness := backlightBrightness s;
     backlightMilOld := backlightMilOld s;
     backlightPatCnt := backlightPatCnt s;
     backlightPatDurMs := backlightPatDurMs s;
     backlightPatTimes := backlightPatTimes s; lowBattery := lowBattery s;
     txRetryCount := txRetryCount s; sleepTimer := sleepTimer s;
     halted := halted s; out := out s |}.

Definition set_edata (v : eeprom_data) (s : state) : state :=
  {| cmdData := cmdData s; bootCount := bootCount s; edata := v;
     pwr_key_is_down := pwr_key_is_down s;
     lastPwrKeyDown := lastPwrKeyDown s;
     int_btn_is_down := int_btn_is_down s;
     lastIntBtnDown := lastIntBtnDown s; hapticStopMils := hapticStopMils s;
     backlightBrightness := backlightBrightness s;
     backlightMilOld := backlightMilOld s;
     backlightPatCnt := backlightPatCnt s;
     backlightPatDurMs := backlightPatDurMs s;
     backlightPatTimes := backlightPatTimes s; lowBattery := lowBattery s;
     txRetryCount := txRetryCount s; sleepTimer := sleepTimer s;
     halted := halted s; out := out s |}.

Definition set_pwr_key_is_down (v : bool) (s : state) : state :=
  {| cmdData := cmdData s; bootCount := bootCount s; edata := edata s;
     pwr_key_is_down := v; lastPwrKeyDown := lastPwrKeyDown s;
     int_btn_is_down := int_btn_is_down s;
     lastIntBtnDown := lastIntBtnDown s; hapticStopMils := hapticStopMils s;
     backlightBrightness := backlightBrightness s;
     backlightMilOld := backlightMilOld s;
     backlightPatCnt := backlightPatCnt s;
     backlightPatDurMs := backlightPatDurMs s;
     backlightPatTimes := backlightPatTimes s; lowBattery := lowBattery s;
     txRetryCount := txRetryCount s; sleepTimer := sleepTimer s;
     halted := halted s; out := out s |}.

Definition set_lastPwrKeyDown (v : Z) (s : state) : state :=
  {| cmdData := cmdData s; bootCount := bootCount s; edata := edata s;
     pwr_key_is_down := pwr_key_is_down s; lastPwrKeyDown := v;
     int_btn_is_down := int_btn_is_down s;
     lastIntBtnDown := lastIntBtnDown s; hapticStopMils := hapticStopMils s;
     backlightBrightness := backlightBrightness s;
     backlightMilOld := backlightMilOld s;
     backlightPatCnt := backlightPatCnt s;
     backlightPatDurMs := backlightPatDurMs s;
     backlightPatTimes := backlightPatTimes s; lowBattery := lowBattery s;
     txRetryCount := txRetryCount s; sleepTimer := sleepTimer s;
     halted := halted s; out := out s |}.

Definition set_int_btn_is_down (v : bool) (s : state) : state :=
  {| cmdData := cmdData s; bootCount := bootCount s; edata := edata s;
     pwr_key_is_down := pwr_key_is_down s;
     lastPwrKeyDown := lastPwrKeyDown s; int_btn_is_down := v;
     lastIntBtnDown := lastIntBtnDown s; hapticStopMils := hapticStopMils s;
     backlightBrightness := backlightBrightness s;
     backlightMilOld := backlightMilOld s;
     backlightPatCnt := backlightPatCnt s;
     backlightPatDurMs := backlightPatDurMs s;
     backlightPatTimes := backlightPatTimes s; lowBattery := lowBattery s;
     txRetryCount := txRetryCount s; sleepTimer := sleepTimer s;
     halted := halted s; out := out s |}.

Definition set_lastIntBtnDown (v : Z) (s : state) : state :=
  {| cmdData := cmdData s; bootCount := bootCount s; edata := edata s;
     pwr_key_is_down := pwr_key_is_down s;
     lastPwrKeyDown := lastPwrKeyDown s;
     int_btn_is_down := int_btn_is_down s; lastIntBtnDown := v;
     hapticStopMils := hapticStopMils s;
     backlightBrightness := backlightBrightness s;
     backlightMilOld := backlightMilOld s;
     backlightPatCnt := backlightPatCnt s;
     backlightPatDurMs := backlightPatDurMs s;
     backlightPatTimes := backlightPatTimes s; lowBattery := lowBattery s;
     txRetryCount := txRetryCount s; sleepTimer := sleepTimer s;
     halted := halted s; out := out s |}.

Definition set_hapticStopMils (v : Z) (s : state) : state :=
  {| cmdData := cmdData s; bootCount := bootCount s; edata := edata s;
     pwr_key_is_down := pwr_key_is_down s;
     lastPwrKeyDown := lastPwrKeyDown s;
     int_btn_is_down := int_btn_is_down s;
     lastIntBtnDown := lastIntBtnDown s; hapticStopMils := v;
     backlightBrightness := backlightBrightness s;
     backlightMilOld := backlightMilOld s;
     backlightPatCnt := backlightPatCnt s;
     backlightPatDurMs := backlightPatDurMs s;
     backlightPatTimes := backlightPatTimes s; lowBattery := lowBattery s;
     txRetryCount := txRetryCount s; sleepTimer := sleepTimer s;
     halted := halted s; out := out s |}.

Definition set_backlightBrightness (v : Z) (s : state) : state :=
  {| cmdData := cmdData s; bootCount := bootCount s; edata := edata s;
     pwr_key_is_down := pwr_key_is_down s;
     lastPwrKeyDown := lastPwrKeyDown s;
     int_btn_is_down := int_btn_is_down s;
     lastIntBtnDown := lastIntBtnDown s; hapticStopMils := hapticStopMils s;
     backlightBrightness := v; backlightMilOld := backlightMilOld s;
     backlightPatCnt := backlightPatCnt s;
     backlightPatDurMs := backlightPatDurMs s;
     backlightPatTimes := backlightPatTimes s; lowBattery := lowBattery s;
     txRetryCount := txRetryCount s; sleepTimer := sleepTimer s;
     halted := halted s; out := out s |}.

Definition set_backlightMilOld (v : Z) (s : state) : state :=
  {| cmdData := cmdData s; bootCount := bootCount s; edata := edata s;
     pwr_key_is_down := pwr_key_is_down s;
     lastPwrKeyDown := lastPwrKeyDown s;
     int_btn_is_down := int_btn_is_down s;
     lastIntBtnDown := lastIntBtnDown s; hapticStopMils := hapticStopMils s;
     backlightBrightness := backlightBrightness s; backlightMilOld := v;
     backlightPatCnt := backlightPatCnt s;
     backlightPatDurMs := backlightPatDurMs s;
     backlightPatTimes := backlightPatTimes s; lowBattery := lowBattery s;
     txRetryCount := txRetryCount s; sleepTimer := sleepTimer s;
     halted := halted s; out := out s |}.

Definition set_backlightPatCnt (v : Z) (s : state) : state :=
  {| cmdData := cmdData s; bootCount := bootCount s; edata := edata s;
     pwr_key_is_down := pwr_key_is_down s;
     lastPwrKeyDown := lastPwrKeyDown s;
     int_btn_is_down := int_btn_is_down s;
     lastIntBtnDown := lastIntBtnDown s; hapticStopMils := hapticStopMils s;
     backlightBrightness := backlightBrightness s;
     backlightMilOld := backlightMilOld s; backlightPatCnt := v;
     backlightPatDurMs := backlightPatDurMs s;
     backlightPatTimes := backlightPatTimes s; lowBattery := lowBattery s;
     txRetryCount := txRetryCount s; sleepTimer := sleepTimer s;
     halted := halted s; out := out s |}.

Definition set_backlightPatDurMs (v : Z) (s : state) : state :=
  {| cmdData := cmdData s; bootCount := bootCount s; edata := edata s;
     pwr_key_is_down := pwr_key_is_down s;
     lastPwrKeyDown := lastPwrKeyDown s;
     int_btn_is_down := int_btn_is_down s;
     lastIntBtnDown := lastIntBtnDown s; hapticStopMils := hapticStopMils s;
     backlightBrightness := backlightBrightness s;
     backlightMilOld := backlightMilOld s;
     backlightPatCnt := backlightPatCnt s; backlightPatDurMs := v;
     backlightPatTimes := backlightPatTimes s; lowBattery := lowBattery s;
     txRetryCount := txRetryCount s; sleepTimer := sleepTimer s;
     halted := halted s; out := out s |}.

Definition set_backlightPatTimes (v : Z) (s : state) : state :=
  {| cmdData := cmdData s; bootCount := bootCount s; edata := edata s;
     pwr_key_is_down := pwr_key_is_down s;
     lastPwrKeyDown := lastPwrKeyDown s;
     int_btn_is_down := int_btn_is_down s;
     lastIntBtnDown := lastIntBtnDown s; hapticStopMils := hapticStopMils s;
     backlightBrightness := backlightBrightness s;
     backlightMilOld := backlightMilOld s;
     backlightPatCnt := backlightPatCnt s;
     backlightPatDurMs := backlightPatDurMs s; backlightPatTimes := v;
     lowBattery := lowBattery s; txRetryCount := txRetryCount s;
     sleepTimer := sleepTimer s; halted := halted s; out := out s |}.

Definition set_lowBattery (v : bool) (s : state) : state :=
  {| cmdData := cmdData s; bootCount := bootCount s; edata := edata s;
     pwr_key_is_down := pwr_key_is_down s;
     lastPwrKeyDown := lastPwrKeyDown s;
     int_btn_is_down := int_btn_is_down s;
     lastIntBtnDown := lastIntBtnDown s; hapticStopMils := hapticStopMils s;
     backlightBrightness := backlightBrightness s;
     backlightMilOld := backlightMilOld s;
     backlightPatCnt := backlightPatCnt s;
     backlightPatDurMs := backlightPatDurMs s;
     backlightPatTimes := backlightPatTimes s; lowBattery := v;
     txRetryCount := txRetryCount s; sleepTimer := sleepTimer s;
     halted := halted s; out := out s |}.

Definition set_txRetryCount (v : Z) (s : state) : state :=
  {| cmdData := cmdData s; bootCount := bootCount s; edata := edata s;
     pwr_key_is_down := pwr_key_is_down s;
     lastPwrKeyDown := lastPwrKeyDown s;
     int_btn_is_down := int_btn_is_down s;
     lastIntBtnDown := lastIntBtnDown s; hapticStopMils := hapticStopMils s;
     backlightBrightness := backlightBrightness s;
     backlightMilOld := backlightMilOld s;
     backlightPatCnt := backlightPatCnt s;
     backlightPatDurMs := backlightPatDurMs s;
     backlightPatTimes := backlightPatTimes s; lowBattery := lowBattery s;
     txRetryCount := v; sleepTimer := sleepTimer s; halted := halted s;
     out := out s |}.

Definition set_sleepTimer (v : hw_timer) (s : state) : state :=
  {| cmdData := cmdData s; bootCount := bootCount s; edata := edata s;
     pwr_key_is_down := pwr_key_is_down s;
     lastPwrKeyDown := lastPwrKeyDown s;
     int_btn_is_down := int_btn_is_down s;
     lastIntBtnDown := lastIntBtnDown s; hapticStopMils := hapticStopMils s;
     backlightBrightness := backlightBrightness s;
     backlightMilOld := backlightMilOld s;
     backlightPatCnt := backlightPatCnt s;
     backlightPatDurMs := backlightPatDurMs s;
     backlightPatTimes := backlightPatTimes s; lowBattery := lowBattery s;
     txRetryCount := txRetryCount s; sleepTimer := v; halted := halted s;
     out := out s |}.

Definition set_halted (v : bool) (s : state) : state :=
  {| cmdData := cmdData s; bootCount := bootCount s; edata := edata s;
     pwr_key_is_down := pwr_key_is_down s;
     lastPwrKeyDown := lastPwrKeyDown s;
     int_btn_is_down := int_btn_is_down s;
     lastIntBtnDown := lastIntBtnDown s; hapticStopMils := hapticStopMils s;
     backlightBrightness := backlightBrightness s;
     backlightMilOld := backlightMilOld s;
     backlightPatCnt := backlightPatCnt s;
     backlightPatDurMs := backlightPatDurMs s;
     backlightPatTimes := backlightPatTimes s; lowBattery := lowBattery s;
     txRetryCount := txRetryCount s; sleepTimer := sleepTimer s; halted := v;
     out := out s |}.

Definition set_out (v : list output) (s : state) : state :=
  {| cmdData := cmdData s; bootCount := bootCount s; edata := edata s;
     pwr_key_is_down := pwr_key_is_down s;
     lastPwrKeyDown := lastPwrKeyDown s;
     int_btn_is_down := int_btn_is_down s;
     lastIntBtnDown := lastIntBtnDown s; hapticStopMils := hapticStopMils s;
     backlightBrightness := backlightBrightness s;
     backlightMilOld := backlightMilOld s;
     backlightPatCnt := backlightPatCnt s;
     backlightPatDurMs := backlightPatDurMs s;
     backlightPatTimes := backlightPatTimes s; lowBattery := lowBattery s;
     txRetryCount := txRetryCount s; sleepTimer := sleepTimer s;
     halted := halted s; out := v |}.
Definition emit (o : output) (s : state) : state := set_out (out s ++ [o]) s.

Definition print (text : string) (s : state) : state := emit (SerialStr text) s.
Definition printValue (text : string) (s : state) : state := emit (SerialValue text) s.
Definition printNum (n : Z) (s : state) : state := emit (SerialNum n) s.

(** Statements in sequence: [s |> f |> g] runs [f], then [g]. *)
Notation "s |> f" := (f s) (at level 45, left associativity, only parsing).

(** ** Feedback: backlight and haptic motor *)

Definition setBacklight (value : Z) (s : state) : state :=
  let duty := uint32 ((8191 / BACKLIGHT_MAX_VAL) * Z.min (uint32 value) BACKLIGHT_MAX_VAL) in
  emit (LedcWrite duty) s.

Definition backlightSetPattern (duration times : Z) (s : state) : state :=
  s |> set_backlightPatCnt 0
    |> set_backlightMilOld 0
    |> set_backlightPatDurMs (uint16 duration)
    |> set_backlightPatTimes (uint8 times).

Definition backlightLowBattery (s : state) : state := backlightSetPattern 100 7 s.
Definition backlightLearnModeSent (s : state) : state := backlightSetPattern 100 5 s.
Definition backlightDataSaved (s : state) : state := backlightSetPattern 100 11 s.

Definition stepBacklightBrightness (s : state) : state :=
  let s :=
    if (uint32 (backlightBrightness s) <? BACKLIGHT_MAX_VAL) && negb (lowBattery s)
    then set_backlightBrightness (int32 (backlightBrightness s + BACKLIGHT_BRIGHTNESS_STEP)) s
    else set_backlightBrightness BACKLIGHT_BRIGHTNESS_STEP s in
  let s := if lowBattery s then backlightLowBattery s else s in
  s |> print "Backlight: "
    |> printNum (backlightBrightness s)
    |> setBacklight (backlightBrightness s).

Definition updateBacklight (now : Z) (s : state) : state :=
  if backlightPatCnt s <? backlightPatTimes s then
    if uint32 (backlightMilOld s + backlightPatDurMs s) <? now then
      let s := set_backlightMilOld now s in
      let s := if backlightPatCnt s mod 2 =? 0
               then setBacklight (backlightBrightness s) s
               else setBacklight 0 s in
      set_backlightPatCnt (uint8 (backlightPatCnt s + 1)) s
    else s
  else s.

Definition hapticVibrate (now : Z) (s : state) : state :=
  s |> set_hapticStopMils (uint32 (now + HAPTIC_DUR_MS))
    |> emit (HapticWrite true).

Definition updateHaptic (now : Z) (s : state) : state :=
  if hapticStopMils s <=? now then emit (HapticWrite false) s else s.

(** ** Battery sense line and calibration *)

(** The battery sense line as a sampling loop sees it: [analogRead vbat i]
    is what the i-th [analogRead(VBAT_SENSE_PIN)] of the loop returns. *)
Record sense_line := { analogRead : nat -> Z }.

(** The line as it is after [n] reads. *)
Definition after (n : nat) (vbat : sense_line) : sense_line :=
  match vbat with
  | {| analogRead := read |} => {| analogRead := fun i => read (n + i)%nat |}
  end.

(** The sampling loop shared by [calcSaveAnalogOffset] and [checkBattery]:
    thirty reads (each a [uint16_t]) summed in a [uint32_t]. *)
Definition samples : nat := 30.

Definition sumSamples (vbat : sense_line) : Z :=
  match vbat with
  | {| analogRead := read |} =>
      fold_left (fun vbatValue i => uint32 (vbatValue + uint16 (read i)))
                (seq 0 samples) 0
  end.

Definition EEPROM_put (s : state) : state := emit (EepromPut (edata s)) s.

Definition calcSaveAnalogOffset (vbat : sense_line) (s : state) : state :=
  let vbatValue := sumSamples vbat in
  let vbatAveVal := int32 (vbatValue / Z.of_nat samples) in
  let s := set_edata {| broadcastAddress := broadcastAddress (edata s);
                        analogOffset := int32 (3600 - vbatAveVal) |} s in
  s |> EEPROM_put
    |> print "Analog Offset: "
    |> printNum (analogOffset (edata s))
    |> backlightDataSaved.

(** ** Pairing address *)

Definition memcmp_eq (a b : list Z) : bool :=
  if list_eq_dec Z.eq_dec a b then true else false.

Fixpoint printAddressBytes (bytes : list Z) (s : state) : state :=
  match bytes with
  | [] => s
  | [b] => emit (SerialHex b) s
  | b :: rest => printAddressBytes rest (s |> emit (SerialHex b) |> print ":")
  end.

Definition printBrodcastAddress (s : state) : state :=
  s |> print "Paired to MAC: "
    |> printAddressBytes (broadcastAddress (edata s)).

Definition setBrodcastAddr (s : state) : state :=
  let NULL_ADDR := [255; 255; 255; 255; 255; 255] in
  let isNullAddr := memcmp_eq NULL_ADDR IR_BLASTER_MAC in
  if negb isNullAddr then
    let isNewAddr := negb (memcmp_eq (broadcastAddress (edata s)) IR_BLASTER_MAC) in
    if isNewAddr then
      let s := set_edata {| broadcastAddress := IR_BLASTER_MAC;
                            analogOffset := analogOffset (edata s) |} s in
      s |> printBrodcastAddress |> EEPROM_put |> backlightDataSaved
    else s
  else s.

(** ** Command dispatcher

    [tx_ok] says whether [esp_now_send] returned [ESP_OK]. *)

Definition sendCmd (tx_ok : bool) (cmdData : cmd_data) (s : state) : state :=
  let s := emit (EspNowSend (broadcastAddress (edata s)) cmdData) s in
  let s := if negb tx_ok then print "Error sending the data" s else s in
  s |> print "key: "
    |> printNum (key cmdData)
    |> print ", cmd: "
    |> printNum (key_cmd_code (cmd cmdData)).

Definition LastPacket : string :=
  String (ascii_of_nat 10) ("Last Packet:" ++ String (ascii_of_nat 9) EmptyString).

(** [delivered] is [status == ESP_NOW_SEND_SUCCESS]. *)
Definition OnDataSent (tx_ok : bool) (delivered : bool) (s : state) : state :=
  let s := print LastPacket s in
  if delivered then
    print "Delivery Success" s
  else
    let s := print "Delivery Failed, Retrying last command" s in
    if uint32 (txRetryCount s) <? MAX_TX_RETRY then
      s |> sendCmd tx_ok (cmdData s)
        |> set_txRetryCount (int32 (txRetryCount s + 1))
    else
      set_txRetryCount 0 s.

(** ** Key interpreter *)

Definition timerWrite (value : Z) (s : state) : state :=
  set_sleepTimer {| tcounter := value;
                    talarm := talarm (sleepTimer s);
                    talarm_enabled := talarm_enabled (sleepTimer s) |} s.

Definition set_cmd (c : key_cmd) (s : state) : state :=
  set_cmdData {| key := key (cmdData s); cmd := c |} s.

Definition set_key (k : Z) (s : state) : state :=
  set_cmdData {| key := k; cmd := cmd (cmdData s) |} s.

Definition keyDown (now : Z) (which : Z) (s : state) : state :=
  let s := timerWrite 0 s in
  let s := if uint32 (backlightBrightness s) =? BACKLIGHT_MAX_VAL
           then hapticVibrate now s else s in
  let s := set_key (uint8 which) s in
  let s := if which =? FN_KEY then set_cmd learn_ir s else s in
  let s := if which =? PWR_KEY
           then s |> set_pwr_key_is_down true |> set_lastPwrKeyDown now
           else s in
  s |> print "Key down: "
    |> printNum (key (cmdData s)).

Definition keyUp (tx_ok : bool) (which : Z) (s : state) : state :=
  let s := s |> print "Key up: " |> printNum which in
  let s :=
    if (which =? FN_KEY) || key_cmd_eqb (cmd (cmdData s)) f_reset then
      let s := set_cmd send_ir s in
      if key (cmdData s) =? FN_KEY then stepBacklightBrightness s else s
    else
      let s := sendCmd tx_ok (cmdData s) s in
      if key_cmd_eqb (cmd (cmdData s)) learn_ir then backlightLearnModeSent s else s in
  if which =? PWR_KEY then set_pwr_key_is_down false s else s.

Definition checkLongKeyPress (now : Z) (tx_ok : bool) (s : state) : state :=
  if pwr_key_is_down s && (FACTORY_RESET_HOLD_MS <? uint32 (now - lastPwrKeyDown s)) then
    s |> set_cmd f_reset
      |> (fun s => sendCmd tx_ok (cmdData s) s)
      |> set_pwr_key_is_down false
      |> backlightDataSaved
      |> print "Sending Factory Reset"
  else s.

(** ** Deep sleep *)

Definition initRtcGpio (s : state) : state :=
  fold_left (fun s pin => emit (RtcGpioHold pin true) s) RTC_COL_PINS
            (emit (Ext0Wakeup WAKE_PIN) s).

Definition clearRtcGpioHolds (s : state) : state :=
  fold_left (fun s pin => emit (RtcGpioHold pin false) s) RTC_COL_PINS s.

(** [esp_deep_sleep_start] does not return: the processor stops, which
    [halted] records. *)
Definition startDeepSleep (s : state) : state :=
  s |> initRtcGpio
    |> print "Entering Deep Sleep"
    |> emit DeepSleepStart
    |> set_halted true.

(** ** Internal button and battery check

    [btnIsDown] is [digitalRead(INTERNAL_BTN_PIN) == LOW]. *)

Definition checkInternalButton (now : Z) (btnIsDown : bool) (vbat : sense_line)
    (s : state) : state :=
  let s :=
    if negb (Bool.eqb (int_btn_is_down s) btnIsDown) then
      let s := set_int_btn_is_down btnIsDown s in
      if int_btn_is_down s then set_lastIntBtnDown now s else s
    else s in
  if int_btn_is_down s && (DO_CALIBRATION_HOLD_MS <? uint32 (now - lastIntBtnDown s)) then
    s |> calcSaveAnalogOffset vbat
      |> set_int_btn_is_down false
  else s.

(** The filtered reading: the average of the thirty samples, as a
    [uint16_t], plus the stored offset, again as a [uint16_t]. *)
Definition filteredReading (vbat : sense_line) (s : state) : Z :=
  let vbatValue := sumSamples vbat in
  let vbatAveVal := uint16 (vbatValue / Z.of_nat samples) in
  uint16 (vbatAveVal + analogOffset (edata s)).

(** The reads of a calibration started from inside [checkBattery] come
    after the thirty reads of the check itself. *)
Definition checkBattery (now : Z) (btnIsDown : bool) (vbat : sense_line)
    (s : state) : state :=
  let vbatAveVal := filteredReading vbat s in
  let s := s |> print "Battery Level: " |> printNum vbatAveVal in
  if vbatAveVal <? VBAT_CRITICAL then
    let s := print "Battery CRITICAL!" s in
    let s := checkInternalButton now btnIsDown (after samples vbat) s in
    if int_btn_is_down s then
      s |> print "Skipping deep-sleep on CRITICAL battery for calibration"
        |> backlightLearnModeSent
        |> set_lowBattery true
    else
      startDeepSleep s
  else if vbatAveVal <? VBAT_LOW then
    if negb (lowBattery s) then
      s |> print "Battery Low!"
        |> set_lowBattery true
        |> backlightLowBattery
    else s
  else
    if lowBattery s then
      s |> print "Battery No longer Low"
        |> set_lowBattery false
    else s.

(** ** Power manager *)

Definition startSleepTimer (s : state) : state :=
  let alarm_value :=
    if lowBattery s
    then int32 (LOWBAT_SLEEP_TIMEOUT_S * 1000000)
    else int32 (DEFAULT_SLEEP_TIMEOUT_S * 1000000) in
  set_sleepTimer {| tcounter := 0; talarm := alarm_value; talarm_enabled := true |} s.

(** ** Boot *)

(** What [esp_sleep_get_wakeup_cause] reports.  For [EXT1] the sketch prints
    a base-2 logarithm computed in floating point; its text is carried by the
    constructor. *)
Inductive wakeup_cause :=
| WAKEUP_EXT0
| WAKEUP_EXT1 (gpio_text : string)
| WAKEUP_TIMER
| WAKEUP_TOUCHPAD
| WAKEUP_ULP
| WAKEUP_OTHER (code : Z).

Definition print_wakeup_trigger (cause : wakeup_cause) (s : state) : state :=
  match cause with
  | WAKEUP_EXT0 => print "Wakeup triggered by EXT0 (RTC_IO)" s
  | WAKEUP_EXT1 gpio_text =>
      s |> print "Wakeup triggered by EXT1 (RTC_CNTL)"
        |> print "GPIO that triggered the wake up: GPIO "
        |> printValue gpio_text
  | WAKEUP_TIMER => print "Wakeup triggerd by Timer" s
  | WAKEUP_TOUCHPAD => print "Wakeup Triggerd by Touchpad" s
  | WAKEUP_ULP => print "Wakeup Triggerd by ULP Program" s
  | WAKEUP_OTHER code =>
      s |> print "Wakeup Triggered by Unknown: " |> printNum code
  end.

(** Everything [setup] reads from outside the sketch's own variables. *)
Record boot_inputs := {
  stored : eeprom_data;            (* EEPROM.get *)
  macAddress : string;             (* WiFi.macAddress() *)
  esp_now_init_ok : bool;          (* esp_now_init() == ESP_OK *)
  esp_now_add_peer_ok : bool;      (* esp_now_add_peer() == ESP_OK *)
  wakeup : wakeup_cause;
  boot_millis : Z;
  boot_btnIsDown : bool;
  boot_vbat : sense_line
}.

Definition initEsp32Now (b : boot_inputs) (s : state) : state :=
  let s := s |> print "MAC Address: " |> printValue (macAddress b) in
  if negb (esp_now_init_ok b) then
    print "Error initializing ESP-NOW" s
  else
    let s := setBrodcastAddr s in
    let s := emit (EspNowAddPeer (broadcastAddress (edata s))) s in
    if negb (esp_now_add_peer_ok b) then print "Failed to add peer" s else s.

(** The variables as the C runtime leaves them before [setup]: zeroed or
    set by their initialisers, except the two [RTC_DATA_ATTR] ones, which
    keep the value they had when the chip went to sleep. *)
Definition startup (rtc_bootCount rtc_backlightBrightness : Z) : state :=
  {| cmdData := {| key := 0; cmd := send_ir |};
     bootCount := rtc_bootCount;
     edata := {| broadcastAddress := [0; 0; 0; 0; 0; 0]; analogOffset := 0 |};
     pwr_key_is_down := false;
     lastPwrKeyDown := 0;
     int_btn_is_down := false;
     lastIntBtnDown := 0;
     hapticStopMils := 0;
     backlightBrightness := rtc_backlightBrightness;
     backlightMilOld := 0;
     backlightPatCnt := 0;
     backlightPatDurMs := 0;
     backlightPatTimes := 0;
     lowBattery := false;
     txRetryCount := 0;
     sleepTimer := {| tcounter := 0; talarm := 0; talarm_enabled := false |};
     halted := false;
     out := [] |}.

(** First power-on: [bootCount = 0], [backlightBrightness] one step. *)
Definition power_on : state := startup 0 BACKLIGHT_BRIGHTNESS_STEP.

Definition setup (b : boot_inputs) (s : state) : state :=
  let s := set_edata (stored b) s in
  let s := initEsp32Now b s in
  let s := print_wakeup_trigger (wakeup b) s in
  let s := emit (HapticWrite false) s in
  let s := s |> print "Analog Offset: " |> printNum (analogOffset (edata s)) in
  let s := checkBattery (boot_millis b) (boot_btnIsDown b) (boot_vbat b) s in
  if halted s then s else
  let s := set_bootCount (uint32 (bootCount s + 1)) s in
  let s := s |> print "Boot number: " |> printNum (bootCount s) in
  let s := s |> printBrodcastAddress |> clearRtcGpioHolds in
  let s := set_cmd send_ir s in
  s |> setBacklight (backlightBrightness s)
    |> startSleepTimer.

(** ** Control loop *)

(** What [kpd.scan()] reports in one pass: calls of the two handlers. *)
Inductive key_transition :=
| Pressed (which : Z)
| Released (tx_ok : bool) (which : Z).

Record loop_inputs := {
  scanned : list key_transition;
  loop_millis : Z;
  loop_tx_ok : bool;
  loop_btnIsDown : bool;
  loop_vbat : sense_line
}.

Definition scan (now : Z) (transitions : list key_transition) (s : state) : state :=
  fold_left (fun s t => match t with
                        | Pressed which => keyDown now which s
                        | Released tx_ok which => keyUp tx_ok which s
                        end) transitions s.

Definition loop (i : loop_inputs) (s : state) : state :=
  s |> scan (loop_millis i) (scanned i)
    |> checkLongKeyPress (loop_millis i) (loop_tx_ok i)
    |> updateBacklight (loop_millis i)
    |> updateHaptic (loop_millis i)
    |> checkInternalButton (loop_millis i) (loop_btnIsDown i) (loop_vbat i).

(** The sleep timer's interrupt.  The counter advances with time; when it
    reaches the alarm while the alarm is enabled, the attached routine
    [startDeepSleep] runs. *)
Definition timerElapse (us : Z) (s : state) : state :=
  let t := sleepTimer s in
  let s := set_sleepTimer {| tcounter := tcounter t + us; talarm := talarm t;
                             talarm_enabled := talarm_enabled t |} s in
  if talarm_enabled t && (talarm t <=? tcounter t + us) then startDeepSleep s else s.

(** ** Executions

    Whatever can happen to the running sketch, one occurrence at a time.  A
    halted processor runs nothing. *)
Inductive event :=
| KeyDown (now : Z) (which : Z)
| KeyUp (tx_ok : bool) (which : Z)
| LongPressPoll (now : Z) (tx_ok : bool)
| BacklightPoll (now : Z)
| HapticPoll (now : Z)
| ButtonPoll (now : Z) (btnIsDown : bool) (vbat : sense_line)
| SendStatus (tx_ok : bool) (delivered : bool)
| Elapse (us : Z).

Definition step (s : state) (e : event) : state :=
  if halted s then s else
  match e with
  | KeyDown now which => keyDown now which s
  | KeyUp tx_ok which => keyUp tx_ok which s
  | LongPressPoll now tx_ok => checkLongKeyPress now tx_ok s
  | BacklightPoll now => updateBacklight now s
  | HapticPoll now => updateHaptic now s
  | ButtonPoll now btnIsDown vbat => checkInternalButton now btnIsDown vbat s
  | SendStatus tx_ok delivered => OnDataSent tx_ok delivered s
  | Elapse us => timerElapse us s
  end.

Definition run (s : state) (events : list event) : state := fold_left step events s.

(** ** Reading the output *)

(** The payloads handed to [esp_now_send], oldest first. *)
Fixpoint sent (l : list output) : list cmd_data :=
  match l with
  | [] => []
  | EspNowSend _ payload :: l => payload :: sent l
  | _ :: l => sent l
  end.

(** The duties written to the backlight's PWM channel, oldest first. *)
Fixpoint pwm (l : list output) : list Z :=
  match l with
  | [] => []
  | LedcWrite duty :: l => duty :: pwm l
  | _ :: l => pwm l
  end.

(** How many times a given literal was printed. *)
Fixpoint printed (literal : string) (l : list output) : nat :=
  match l with
  | [] => 0%nat
  | SerialStr text :: l =>
      if String.eqb text literal then S (printed literal l) else printed literal l
  | _ :: l => printed literal l
  end.

(** [stepBacklightBrightness] is the only function that prints
    "Backlight: ", and it does so once per call. *)
Definition brightnessSteps : list output -> nat := printed "Backlight: ".

(** [checkBattery] is the only function that prints "Battery Level: ",
    once per call. *)
Definition batteryChecks : list output -> nat := printed "Battery Level: ".

(** The payloads among [l] that are factory resets. *)
Definition factoryResets (l : list cmd_data) : list cmd_data :=
  filter (fun c => key_cmd_eqb (cmd c) f_reset) l.

(** The backlight flash pattern in force. *)
Definition pattern (s : state) : Z * Z * Z * Z :=
  (backlightPatCnt s, backlightMilOld s, backlightPatDurMs s, backlightPatTimes s).

Definition lowBatteryPattern : Z * Z * Z * Z := (0, 0, 100, 7).
Definition learnModePattern : Z * Z * Z * Z := (0, 0, 100, 5).
Definition dataSavedPattern : Z * Z * Z * Z := (0, 0, 100, 11).

(** Delivery-failure callbacks in a row, one per element of [txs], which
    gives what [esp_now_send] returns in each. *)
Definition deliveryFailures (txs : list bool) (s : state) : state :=
  fold_left (fun s tx_ok => OnDataSent tx_ok false s) txs s.

(** What belongs to the power manager and the battery monitor: the alarm of
    the sleep timer, the low-battery flag, whether the processor runs, and
    the number of battery checks made. *)
Definition same_power (s s' : state) : Prop :=
  talarm (sleepTimer s') = talarm (sleepTimer s) /\
  talarm_enabled (sleepTimer s') = talarm_enabled (sleepTimer s) /\
  lowBattery s' = lowBattery s /\
  halted s' = halted s /\
  batteryChecks (out s') = batteryChecks (out s).

(** What may happen while PWR stays down: other keys go down and up, the
    loop polls, deliveries are confirmed; PWR itself is neither released nor
    pressed again.  (A failed delivery would resend whatever is pending, and
    the sleep timer would stop the polling.) *)
Definition during_hold (e : event) : Prop :=
  match e with
  | KeyDown _ which | KeyUp _ which => which <> PWR_KEY
  | LongPressPoll _ _ | BacklightPoll _ | HapticPoll _ | ButtonPoll _ _ _ => True
  | SendStatus _ delivered => delivered = true
  | Elapse _ => False
  end.

(** A poll of [checkLongKeyPress] that finds more than the hold time elapsed
    since a press at [t0]. *)
Definition hold_expired (t0 : Z) (e : event) : Prop :=
  match e with
  | LongPressPoll now _ => FACTORY_RESET_HOLD_MS < uint32 (now - t0)
  | _ => False
  end.

(** What a held PWR key depends on. *)
Definition same_hold (s s' : state) : Prop :=
  pwr_key_is_down s' = pwr_key_is_down s /\
  lastPwrKeyDown s' = lastPwrKeyDown s /\
  halted s' = halted s /\
  factoryResets (sent (out s')) = factoryResets (sent (out s)).

(** The calibration runs when the button was already recorded as down, is
    still down, and has been so for more than the hold time. *)
Definition calibration_due (now : Z) (btnIsDown : bool) (s : state) : bool :=
  int_btn_is_down s && btnIsDown &&
  (DO_CALIBRATION_HOLD_MS <? uint32 (now - lastIntBtnDown s)).

(** The three battery states, and how a check shows which one it found:
    on Critical it announces it and either stops the processor or, for a
    calibration, carries on with the low-battery flag set; on Low it leaves
    the flag set; on Normal it leaves the flag clear. *)
Inductive BatteryState := Normal | Low | Critical.

Definition found (s s' : state) (b : BatteryState) : Prop :=
  match b with
  | Critical =>
      printed "Battery CRITICAL!" (out s') = S (printed "Battery CRITICAL!" (out s)) /\
      (halted s' = true \/ halted s' = halted s /\ lowBattery s' = true)
  | Low =>
      printed "Battery CRITICAL!" (out s') = printed "Battery CRITICAL!" (out s) /\
      halted s' = halted s /\ lowBattery s' = true
  | Normal =>
      printed "Battery CRITICAL!" (out s') = printed "Battery CRITICAL!" (out s) /\
      halted s' = halted s /\ lowBattery s' = false
  end.

(** Battery checks one after the other. *)
Record battery_check := {
  check_millis : Z;
  check_btnIsDown : bool;
  check_vbat : sense_line
}.

Definition runChecks (checks : list battery_check) (s : state) : state :=
  fold_left (fun s c => checkBattery (check_millis c) (check_btnIsDown c)
                                     (check_vbat c) s) checks s.

(** How many times the low-battery alert was raised. *)
Definition lowBatteryAlerts : list output -> nat := printed "Battery Low!".

(** The reading of the check that [setup] makes. *)
Definition bootReading (b : boot_inputs) : Z :=
  uint16 (uint16 (sumSamples (boot_vbat b) / Z.of_nat samples)
          + analogOffset (stored b)).

(** A step that changes nothing but the output, and announces no battery
    check in it. *)
Definition only_output (s s' : state) : Prop :=
  exists l : list output, s' = set_out (out s ++ l) s /\ batteryChecks l = 0%nat.

(** ** A device to run examples on: paired, calibrated, battery at 3912. *)

Definition example_boot : boot_inputs :=
  {| stored := {| broadcastAddress := [36; 111; 40; 170; 187; 204]; analogOffset := 12 |};
     macAddress := "24:6F:28:01:02:03";
     esp_now_init_ok := true;
     esp_now_add_peer_ok := true;
     wakeup := WAKEUP_EXT0;
     boot_millis := 40;
     boot_btnIsDown := false;
     boot_vbat := {| analogRead := fun _ => 3900 |} |}.

Definition booted : state := setup example_boot power_on.

Arguments uint8 : simpl never.
Arguments uint16 : simpl never.
Arguments uint32 : simpl never.
Arguments int32 : simpl never.
Arguments sumSamples : simpl never.
Arguments filteredReading : simpl never.

(** ** Further readings of the output and of executions *)

(** The levels written to the haptic pin, oldest first. *)
Fixpoint motor (l : list output) : list bool :=
  match l with
  | [] => []
  | HapticWrite high :: l => high :: motor l
  | _ :: l => motor l
  end.

(** The records written to the EEPROM, oldest first. *)
Fixpoint eepromWrites (l : list output) : list eeprom_data :=
  match l with
  | [] => []
  | EepromPut e :: l => e :: eepromWrites l
  | _ :: l => eepromWrites l
  end.

(** The five brightness levels the FN key cycles through. *)
Definition is_level (v : Z) : Prop := In v [51; 102; 153; 204; 255].

(** Polls of [updateBacklight] at the given clock readings. *)
Definition playback (times : list Z) (s : state) : state :=
  fold_left (fun s now => updateBacklight now s) times s.

(** Polls of [updateHaptic] at the given clock readings. *)
Definition hapticPolls (times : list Z) (s : state) : state :=
  fold_left (fun s now => updateHaptic now s) times s.

(** Clock readings each more than [d] ms after the one before, the first
    more than [d] after [prev], and none within [d] of the wrap of the
    clock. *)
Fixpoint spaced (d prev : Z) (times : list Z) : Prop :=
  match times with
  | [] => True
  | t :: rest => prev + d < t /\ t + d < 2 ^ 32 /\ spaced d t rest
  end.

(** What a pattern writes from its [k]-th toggle on, [n] toggles long: the
    duty [on] at even counts, 0 at odd ones. *)
Fixpoint blink (on : Z) (k n : nat) : list Z :=
  match n with
  | O => []
  | S n' => (if Nat.even k then on else 0) :: blink on (S k) n'
  end.

(** A key pressed and released, with nothing in between. *)
Definition tap (now : Z) (tx_ok : bool) (which : Z) (s : state) : state :=
  keyUp tx_ok which (keyDown now which s).

(** Taps one after the other; each comes with its clock reading and the
    status of its transmission. *)
Definition taps (keys : list (Z * bool * Z)) (s : state) : state :=
  fold_left (fun s k => let '(now, tx_ok, which) := k in tap now tx_ok which s) keys s.

(** One pass of [loop] as a sequence of events. *)
Definition loop_events (i : loop_inputs) : list event :=
  map (fun t => match t with
                | Pressed which => KeyDown (loop_millis i) which
                | Released tx_ok which => KeyUp tx_ok which
                end) (scanned i)
  ++ [LongPressPoll (loop_millis i) (loop_tx_ok i);
      BacklightPoll (loop_millis i);
      HapticPoll (loop_millis i);
      ButtonPoll (loop_millis i) (loop_btnIsDown i) (loop_vbat i)].

(** [setBrodcastAddr] for an arbitrary value [mac] of the constant
    [IR_BLASTER_MAC], which is meant to be edited before the one flashing
    that pairs the keypad. *)
Definition setBrodcastAddrFor (mac : list Z) (s : state) : state :=
  let NULL_ADDR := [255; 255; 255; 255; 255; 255] in
  let isNullAddr := memcmp_eq NULL_ADDR mac in
  if negb isNullAddr then
    let isNewAddr := negb (memcmp_eq (broadcastAddress (edata s)) mac) in
    if isNewAddr then
      let s := set_edata {| broadcastAddress := mac;
                            analogOffset := analogOffset (edata s) |} s in
      s |> printBrodcastAddress |> EEPROM_put |> backlightDataSaved
    else s
  else s.

(** What a running device may write: transmissions to [addr] whose key is
    a byte, and anything but the registration of a peer. *)
Definition to_peer (addr : list Z) (o : output) : Prop :=
  match o with
  | EspNowSend peer payload => peer = addr /\ 0 <= key payload < 256
  | EspNowAddPeer _ => False
  | _ => True
  end.

(** A step that changes nothing but the output, and in it neither
    transmits, nor writes to the backlight or to the EEPROM. *)
Definition silent (s s' : state) : Prop :=
  exists l : list output,
    s' = set_out (out s ++ l) s /\ sent l = [] /\ pwm l = [] /\ eepromWrites l = [].

(** The addresses registered as peers, oldest first. *)
Fixpoint addedPeers (l : list output) : list (list Z) :=
  match l with
  | [] => []
  | EspNowAddPeer peer :: l => peer :: addedPeers l
  | _ :: l => addedPeers l
  end.

(** The boot that follows a deep sleep.  The two [RTC_DATA_ATTR] variables
    keep the value they had in [s]; every other variable starts afresh. *)
Definition wake (b : boot_inputs) (s : state) : state :=
  setup b (startup (bootCount s) (backlightBrightness s)).

(** * Properties *)

(** ** Reading the output of a sequence *)

Lemma sent_app (l1 l2 : list output) : sent (l1 ++ l2) = sent l1 ++ sent l2.
Proof.
  induction l1 as [|o l1 IH]; simpl; [reflexivity|].
  destruct o; simpl; rewrite ?IH; reflexivity.
Qed.

Lemma printed_app (literal : string) (l1 l2 : list output) :
  printed literal (l1 ++ l2) = (printed literal l1 + printed literal l2)%nat.
Proof.
  induction l1 as [|o l1 IH]; simpl; [reflexivity|].
  destruct o; simpl; rewrite ?IH; try reflexivity.
  destruct (String.eqb text literal); simpl; rewrite ?IH; reflexivity.
Qed.

Lemma pwm_app (l1 l2 : list output) : pwm (l1 ++ l2) = pwm l1 ++ pwm l2.
Proof.
  induction l1 as [|o l1 IH]; simpl; [reflexivity|].
  destruct o; simpl; rewrite ?IH; reflexivity.
Qed.

Lemma factoryResets_app (l1 l2 : list cmd_data) :
  factoryResets (l1 ++ l2) = factoryResets l1 ++ factoryResets l2.
Proof. apply filter_app. Qed.

(** ** Machine integers in range *)

Lemma uint8_small (z : Z) : 0 <= z < 256 -> uint8 z = z.
Proof. intros H. unfold uint8. apply Z.mod_small. lia. Qed.

Lemma uint32_small (z : Z) : 0 <= z < 2 ^ 32 -> uint32 z = z.
Proof. intros H. unfold uint32. apply Z.mod_small. lia. Qed.

Lemma int32_small (z : Z) : - 2 ^ 31 <= z < 2 ^ 31 -> int32 z = z.
Proof. intros H. unfold int32. rewrite Z.mod_small; lia. Qed.

Lemma uint16_range (z : Z) : 0 <= uint16 z < 65536.
Proof. unfold uint16. change (2 ^ 16) with 65536. apply Z.mod_pos_bound. lia. Qed.

(** ** Proof steps shared by the lemmas on handlers *)

Ltac case_ifs :=
  cbn;
  repeat match goal with
         | |- context [if ?c then _ else _] =>
             lazymatch c with
             | context [if _ then _ else _] => fail
             | _ => idtac
             end;
             let E := fresh "E" in destruct c eqn:E; cbn
         end.

Ltac outputs :=
  unfold brightnessSteps, batteryChecks;
  repeat (rewrite ?sent_app, ?printed_app, ?factoryResets_app; cbn);
  rewrite ?app_nil_r, ?Nat.add_0_r.

Ltac by_cases := cbn; case_ifs; outputs; try reflexivity; try congruence.

(** ** Key interpreter, one handler at a time *)

Section KeyInterpreter.

Variables (now : Z) (tx_ok : bool) (which : Z) (s : state).

Lemma keyDown_cmdData :
  cmdData (keyDown now which s) =
  {| key := uint8 which;
     cmd := if which =? FN_KEY then learn_ir else cmd (cmdData s) |}.
Proof. unfold keyDown. by_cases. Qed.

Lemma keyDown_sent : sent (out (keyDown now which s)) = sent (out s).
Proof. unfold keyDown, hapticVibrate. by_cases. Qed.

Lemma keyDown_printed :
  brightnessSteps (out (keyDown now which s)) = brightnessSteps (out s) /\
  batteryChecks (out (keyDown now which s)) = batteryChecks (out s).
Proof. unfold keyDown, hapticVibrate. by_cases; split; reflexivity. Qed.

Lemma keyDown_pwr_key_is_down :
  pwr_key_is_down (keyDown now which s) =
  if which =? PWR_KEY then true else pwr_key_is_down s.
Proof. unfold keyDown, hapticVibrate. by_cases. Qed.

Lemma keyDown_lastPwrKeyDown :
  lastPwrKeyDown (keyDown now which s) =
  if which =? PWR_KEY then now else lastPwrKeyDown s.
Proof. unfold keyDown, hapticVibrate. by_cases. Qed.

Lemma keyDown_sleepTimer :
  sleepTimer (keyDown now which s) =
  {| tcounter := 0; talarm := talarm (sleepTimer s);
     talarm_enabled := talarm_enabled (sleepTimer s) |}.
Proof. unfold keyDown, hapticVibrate. by_cases. Qed.

(** What [keyDown] leaves alone. *)
Lemma keyDown_frame :
  let s' := keyDown now which s in
  backlightBrightness s' = backlightBrightness s /\
  lowBattery s' = lowBattery s /\
  txRetryCount s' = txRetryCount s /\
  edata s' = edata s /\
  halted s' = halted s /\
  pattern s' = pattern s.
Proof. unfold keyDown, hapticVibrate, pattern. by_cases; repeat split. Qed.

(** [keyUp], first branch: the released key is FN, or a factory reset was
    just sent.  Nothing is transmitted; the brightness steps when the
    pending key is FN. *)
Lemma keyUp_revert :
  which = FN_KEY \/ cmd (cmdData s) = f_reset ->
  let s' := keyUp tx_ok which s in
  sent (out s') = sent (out s) /\
  cmd (cmdData s') = send_ir /\
  key (cmdData s') = key (cmdData s) /\
  (key (cmdData s) = FN_KEY ->
     brightnessSteps (out s') = S (brightnessSteps (out s)) /\
     backlightBrightness s' =
       backlightBrightness (stepBacklightBrightness s)) /\
  (key (cmdData s) <> FN_KEY ->
     brightnessSteps (out s') = brightnessSteps (out s) /\
     backlightBrightness s' = backlightBrightness s).
Proof.
  intros H.
  assert (C : (which =? FN_KEY) || key_cmd_eqb (cmd (cmdData s)) f_reset = true).
  { destruct H as [-> | ->]; [reflexivity | apply orb_true_r]. }
  unfold keyUp, stepBacklightBrightness, setBacklight, backlightLowBattery.
  cbn. rewrite C.
  destruct (key (cmdData s) =? FN_KEY) eqn:EK.
  - apply Z.eqb_eq in EK.
    case_ifs; outputs; repeat split; try reflexivity; try congruence; lia.
  - apply Z.eqb_neq in EK.
    case_ifs; outputs; repeat split; try reflexivity; try congruence; lia.
Qed.

(** Everything [keyDown] writes: the haptic pin when the backlight is at
    its brightest, then the log line. *)
Lemma keyDown_out :
  out (keyDown now which s) =
  out s ++ (if uint32 (backlightBrightness s) =? 255 then [HapticWrite true] else [])
        ++ [SerialStr "Key down: "; SerialNum (uint8 which)].
Proof.
  unfold keyDown, hapticVibrate. change BACKLIGHT_MAX_VAL with 255.
  case_ifs; rewrite <- ?app_assoc; reflexivity.
Qed.

(** Everything the release of FN does while FN is the pending key: the log
    line, then [stepBacklightBrightness] with its own log line and its one
    write to the PWM channel. *)
Lemma keyUp_FN_pending :
  key (cmdData s) = FN_KEY ->
  let s' := keyUp tx_ok FN_KEY s in
  let level := if (uint32 (backlightBrightness s) <? 255) && negb (lowBattery s)
               then int32 (backlightBrightness s + 51) else 51 in
  out s' = out s ++ [SerialStr "Key up: "; SerialNum FN_KEY;
                     SerialStr "Backlight: "; SerialNum level;
                     LedcWrite (32 * Z.min (uint32 level) 255)] /\
  backlightBrightness s' = level /\
  cmdData s' = {| key := FN_KEY; cmd := send_ir |} /\
  pattern s' = (if lowBattery s then lowBatteryPattern else pattern s).
Proof.
  intros K s' level.
  assert (D : forall v, uint32 (8191 / 255 * Z.min (uint32 v) 255) = 32 * Z.min (uint32 v) 255).
  { intros v. change (8191 / 255) with 32.
    assert (0 <= uint32 v) by (unfold uint32; apply Z.mod_pos_bound; lia).
    apply uint32_small. lia. }
  subst s' level.
  unfold keyUp, stepBacklightBrightness, setBacklight, backlightLowBattery, pattern.
  change BACKLIGHT_MAX_VAL with 255. change BACKLIGHT_BRIGHTNESS_STEP with 51.
  cbn in D. cbn. rewrite K. cbn.
  destruct (lowBattery s) eqn:EL; cbn; rewrite ?EL, ?andb_true_r, ?andb_false_r;
    case_ifs; rewrite ?D, <- ?app_assoc; cbn; repeat split; congruence.
Qed.

(** [keyUp], second branch: the pending command goes to the dispatcher. *)
Lemma keyUp_send :
  which <> FN_KEY -> cmd (cmdData s) <> f_reset ->
  let s' := keyUp tx_ok which s in
  sent (out s') = sent (out s) ++ [cmdData s] /\
  cmdData s' = cmdData s /\
  brightnessSteps (out s') = brightnessSteps (out s) /\
  backlightBrightness s' = backlightBrightness s /\
  pattern s' = (if key_cmd_eqb (cmd (cmdData s)) learn_ir
                then learnModePattern else pattern s).
Proof.
  intros HF HR.
  assert (C : (which =? FN_KEY) || key_cmd_eqb (cmd (cmdData s)) f_reset = false).
  { apply Z.eqb_neq in HF. rewrite HF. destruct (cmd (cmdData s)); simpl; congruence. }
  unfold keyUp, sendCmd, backlightLearnModeSent, pattern. cbn. rewrite C.
  case_ifs; outputs; repeat split; reflexivity.
Qed.

End KeyInterpreter.

(** C1.  FN is pressed and held, a key K other than FN is pressed and
    released, then FN is released: the interpreter hands exactly one command
    to the dispatcher, a [learn_ir] for key K, and the brightness is never
    stepped.  This holds from every state, whatever the clock reads at the two
    presses and whatever [esp_now_send] returns. *)
Theorem fn_held_key_sends_one_learn
    (s : state) (t1 t2 : Z) (tx_ok tx_ok' : bool) (K : Z) :
  0 <= K < 256 -> K <> FN_KEY ->
  let s1 := keyDown t1 FN_KEY s in
  let s2 := keyDown t2 K s1 in
  let s3 := keyUp tx_ok K s2 in
  let s4 := keyUp tx_ok' FN_KEY s3 in
  sent (out s4) = sent (out s) ++ [{| key := K; cmd := learn_ir |}] /\
  sent (out s2) = sent (out s) /\
  sent (out s4) = sent (out s3) /\
  brightnessSteps (out s4) = brightnessSteps (out s) /\
  backlightBrightness s4 = backlightBrightness s.
Proof.
  intros HK HFN s1 s2 s3 s4.
  assert (E2 : cmdData s2 = {| key := K; cmd := learn_ir |}).
  { subst s1 s2. rewrite !keyDown_cmdData. cbn.
    apply Z.eqb_neq in HFN. rewrite HFN, uint8_small by assumption. reflexivity. }
  assert (S2 : sent (out s2) = sent (out s)).
  { subst s1 s2. rewrite !keyDown_sent. reflexivity. }
  assert (B2 : brightnessSteps (out s2) = brightnessSteps (out s)).
  { subst s1 s2.
    rewrite (proj1 (keyDown_printed t2 K _)), (proj1 (keyDown_printed t1 FN_KEY _)).
    reflexivity. }
  assert (L2 : backlightBrightness s2 = backlightBrightness s).
  { subst s1 s2.
    destruct (keyDown_frame t2 K (keyDown t1 FN_KEY s)) as (-> & _).
    destruct (keyDown_frame t1 FN_KEY s) as (-> & _). reflexivity. }
  destruct (keyUp_send tx_ok K s2 HFN) as (S3 & C3 & B3 & L3 & _).
  { rewrite E2. discriminate. }
  fold s3 in S3, C3, B3, L3.
  destruct (keyUp_revert tx_ok' FN_KEY s3 (or_introl eq_refl)) as (S4 & _ & _ & _ & N4).
  fold s4 in S4, N4.
  destruct N4 as (B4 & L4).
  { rewrite C3, E2. exact HFN. }
  repeat split.
  - rewrite S4, S3, S2, E2. reflexivity.
  - exact S2.
  - exact S4.
  - rewrite B4, B3, B2. reflexivity.
  - rewrite L4, L3, L2. reflexivity.
Qed.

Lemma fn_held_key_sends_one_learn_witness :
  let s1 := keyDown 100 FN_KEY booted in
  let s2 := keyDown 140 7 s1 in
  let s3 := keyUp true 7 s2 in
  let s4 := keyUp true FN_KEY s3 in
  sent (out s4) = sent (out booted) ++ [{| key := 7; cmd := learn_ir |}] /\
  sent (out s2) = sent (out booted) /\
  sent (out s4) = sent (out s3) /\
  brightnessSteps (out s4) = brightnessSteps (out booted) /\
  backlightBrightness s4 = backlightBrightness booted.
Proof.
  refine (fn_held_key_sends_one_learn booted 100 140 true true 7 _ _).
  - lia.
  - discriminate.
Defined.

Lemma stepBacklightBrightness_value (s : state) :
  backlightBrightness (stepBacklightBrightness s) =
  if (uint32 (backlightBrightness s) <? 255) && negb (lowBattery s)
  then int32 (backlightBrightness s + 51) else 51.
Proof.
  unfold stepBacklightBrightness, setBacklight, backlightLowBattery.
  change BACKLIGHT_MAX_VAL with 255. change BACKLIGHT_BRIGHTNESS_STEP with 51.
  by_cases.
Qed.

(** C2.  FN is pressed and then released, with no other key pressed or
    released in between, from any state (so after any earlier keys).  The
    press writes its log line (and pulses the haptic motor at full
    brightness); the release writes its log line and steps the brightness
    exactly once: the level moves up by 51, or back to 51 from the top or on
    low battery, it is logged, and its duty is written once to the PWM
    channel of the backlight.  Nothing is handed to the dispatcher, neither by
    the press nor by the release, and the pending command is back to
    [send_ir]. *)
Theorem fn_tap_steps_brightness_once (s : state) (t : Z) (tx_ok : bool) :
  let s1 := keyDown t FN_KEY s in
  let s2 := keyUp tx_ok FN_KEY s1 in
  let level := if (uint32 (backlightBrightness s) <? 255) && negb (lowBattery s)
               then int32 (backlightBrightness s + 51) else 51 in
  brightnessSteps (out s1) = brightnessSteps (out s) /\
  brightnessSteps (out s2) = S (brightnessSteps (out s)) /\
  backlightBrightness s2 =
    (if (uint32 (backlightBrightness s) <? 255) && negb (lowBattery s)
     then int32 (backlightBrightness s + 51) else 51) /\
  sent (out s1) = sent (out s) /\
  sent (out s2) = sent (out s) /\
  out s1 = out s ++ (if uint32 (backlightBrightness s) =? 255
                     then [HapticWrite true] else [])
                 ++ [SerialStr "Key down: "; SerialNum FN_KEY] /\
  out s2 = out s1 ++ [SerialStr "Key up: "; SerialNum FN_KEY;
                      SerialStr "Backlight: "; SerialNum level;
                      LedcWrite (32 * Z.min (uint32 level) 255)] /\
  pwm (out s1) = pwm (out s) /\
  pwm (out s2) = pwm (out s) ++ [32 * Z.min (uint32 level) 255] /\
  cmdData s2 = {| key := FN_KEY; cmd := send_ir |} /\
  pattern s2 = (if lowBattery s then lowBatteryPattern else pattern s).
Proof.
  intros s1 s2 level.
  destruct (keyDown_frame t FN_KEY s) as (L1 & W1 & _ & _ & _ & P1).
  fold s1 in L1, W1, P1.
  assert (K1 : key (cmdData s1) = FN_KEY).
  { subst s1. rewrite keyDown_cmdData. reflexivity. }
  assert (O1 : out s1 = out s ++ (if uint32 (backlightBrightness s) =? 255
                                  then [HapticWrite true] else [])
                              ++ [SerialStr "Key down: "; SerialNum FN_KEY]).
  { subst s1. rewrite keyDown_out. reflexivity. }
  destruct (keyUp_FN_pending tx_ok s1 K1) as (O2 & L2 & C2 & P2).
  fold s2 in O2, L2, C2, P2. rewrite L1, W1 in O2, L2. rewrite W1, P1 in P2.
  fold level in O2, L2.
  assert (B1 : brightnessSteps (out s1) = brightnessSteps (out s))
    by apply keyDown_printed.
  assert (S1 : sent (out s1) = sent (out s)) by apply keyDown_sent.
  assert (M1 : pwm (out s1) = pwm (out s)).
  { rewrite O1, !pwm_app.
    destruct (uint32 (backlightBrightness s) =? 255); cbn; apply app_nil_r. }
  repeat split.
  - exact B1.
  - rewrite O2. unfold brightnessSteps in *. rewrite printed_app, B1. cbn. lia.
  - exact L2.
  - exact S1.
  - rewrite O2, sent_app, S1. cbn. apply app_nil_r.
  - exact O1.
  - exact O2.
  - exact M1.
  - rewrite O2, pwm_app, M1. reflexivity.
  - exact C2.
  - exact P2.
Qed.

(** C2 as claimed fails when a key held since before the press of FN is
    released before FN is.  Key 7 goes down, then FN; key 7 goes up, then FN.
    Between the press and the release of FN no key is pressed, and the
    brightness steps once, to 102; but the release of key 7 finds FN pending
    in learn mode and transmits (20, learn_ir). *)
Lemma key_released_during_fn_tap_sends_learn :
  let s1 := keyDown 100 7 booted in
  let s2 := keyDown 140 FN_KEY s1 in
  let s3 := keyUp true 7 s2 in
  let s4 := keyUp true FN_KEY s3 in
  sent (out booted) = [] /\
  sent (out s2) = [] /\
  sent (out s3) = [{| key := 20; cmd := learn_ir |}] /\
  sent (out s4) = [{| key := 20; cmd := learn_ir |}] /\
  brightnessSteps (out s4) = S (brightnessSteps (out booted)) /\
  backlightBrightness booted = 51 /\
  backlightBrightness s4 = 102.
Proof. vm_compute. repeat split. Qed.

(** ** Command dispatcher *)

Section Dispatcher.

Variables (tx_ok : bool) (s : state).

Lemma OnDataSent_success :
  let s' := OnDataSent tx_ok true s in
  txRetryCount s' = txRetryCount s /\
  cmdData s' = cmdData s /\
  sent (out s') = sent (out s).
Proof. unfold OnDataSent. by_cases. repeat split. Qed.

Lemma OnDataSent_retry :
  uint32 (txRetryCount s) < MAX_TX_RETRY ->
  let s' := OnDataSent tx_ok false s in
  txRetryCount s' = int32 (txRetryCount s + 1) /\
  cmdData s' = cmdData s /\
  sent (out s') = sent (out s) ++ [cmdData s].
Proof.
  intros H. apply Z.ltb_lt in H.
  unfold OnDataSent, sendCmd. cbn. rewrite H. by_cases; repeat split.
Qed.

Lemma OnDataSent_drop :
  MAX_TX_RETRY <= uint32 (txRetryCount s) ->
  let s' := OnDataSent tx_ok false s in
  txRetryCount s' = 0 /\
  cmdData s' = cmdData s /\
  sent (out s') = sent (out s).
Proof.
  intros H. apply Z.ltb_ge in H.
  unfold OnDataSent, sendCmd. cbn. rewrite H. by_cases; repeat split.
Qed.

End Dispatcher.

(** Failures in a row while the counter stays within the bound: each one
    resends the pending command and counts one up. *)
Lemma deliveryFailures_resend (txs : list bool) :
  forall s : state,
    0 <= txRetryCount s ->
    txRetryCount s + Z.of_nat (length txs) <= MAX_TX_RETRY ->
    let s' := deliveryFailures txs s in
    txRetryCount s' = txRetryCount s + Z.of_nat (length txs) /\
    cmdData s' = cmdData s /\
    sent (out s') = sent (out s) ++ repeat (cmdData s) (length txs).
Proof.
  unfold MAX_TX_RETRY.
  induction txs as [|tx txs IH]; intros s H0 H1; cbn [deliveryFailures fold_left length repeat].
  - rewrite app_nil_r. repeat split. cbn. lia.
  - cbn [length] in H1. rewrite Nat2Z.inj_succ in H1 |- *.
    destruct (OnDataSent_retry tx s) as (T & C & S).
    { rewrite uint32_small; unfold MAX_TX_RETRY; lia. }
    rewrite int32_small in T by lia.
    destruct (IH (OnDataSent tx false s)) as (T' & C' & S'); [lia | lia |].
    unfold deliveryFailures in T', C', S'.
    rewrite T', C', S', T, C, S, <- app_assoc. repeat split. lia.
Qed.

(** C3.  From a retry counter of 0, N <= 24 delivery failures in a row
    resend the pending payload N times and leave the counter at N; after 24
    of them the 25th failure resends nothing and resets the counter to 0. *)
Theorem retries_bounded_by_24 (s : state) (txs : list bool) (tx25 : bool) :
  txRetryCount s = 0 ->
  (length txs <= 24)%nat ->
  let s' := deliveryFailures txs s in
  sent (out s') = sent (out s) ++ repeat (cmdData s) (length txs) /\
  txRetryCount s' = Z.of_nat (length txs) /\
  (length txs = 24%nat ->
   let s'' := OnDataSent tx25 false s' in
   sent (out s'') = sent (out s) ++ repeat (cmdData s) 24 /\
   txRetryCount s'' = 0).
Proof.
  intros H0 HN s'.
  destruct (deliveryFailures_resend txs s) as (T & C & S).
  { lia. } { unfold MAX_TX_RETRY. lia. }
  fold s' in T, C, S. rewrite H0 in T. cbn in T.
  split; [exact S|]. split; [exact T|].
  intros H24 s''.
  destruct (OnDataSent_drop tx25 s') as (T'' & _ & S'').
  { rewrite T, H24, uint32_small; unfold MAX_TX_RETRY; cbn; lia. }
  fold s'' in T'', S''.
  split; [|exact T''].
  rewrite S'', S, H24. reflexivity.
Qed.

Lemma retries_bounded_by_24_witness :
  let s' := deliveryFailures (repeat true 24) booted in
  let s'' := OnDataSent true false s' in
  sent (out s'') = sent (out booted) ++ repeat (cmdData booted) 24 /\
  txRetryCount s'' = 0.
Proof.
  refine (proj2 (proj2 (retries_bounded_by_24 booted (repeat true 24) true _ _)) _).
  - vm_compute. reflexivity.
  - vm_compute. repeat constructor.
  - vm_compute. reflexivity.
Defined.

(** ** What the handlers leave alone *)

Ltac frame :=
  unfold same_power; by_cases; repeat split; try assumption; try (symmetry; assumption).

Lemma same_power_refl (s : state) : same_power s s.
Proof. unfold same_power. repeat split. Qed.

Lemma same_power_trans (s1 s2 s3 : state) :
  same_power s1 s2 -> same_power s2 s3 -> same_power s1 s3.
Proof. unfold same_power. intuition congruence. Qed.

Lemma keyDown_same_power now which s : same_power s (keyDown now which s).
Proof. unfold keyDown, hapticVibrate. frame. Qed.

Lemma keyUp_same_power tx_ok which s : same_power s (keyUp tx_ok which s).
Proof.
  unfold keyUp, stepBacklightBrightness, setBacklight, backlightLowBattery, sendCmd,
    backlightLearnModeSent.
  frame.
Qed.

Lemma checkLongKeyPress_same_power now tx_ok s :
  same_power s (checkLongKeyPress now tx_ok s).
Proof. unfold checkLongKeyPress, sendCmd, backlightDataSaved. frame. Qed.

Lemma updateBacklight_same_power now s : same_power s (updateBacklight now s).
Proof. unfold updateBacklight, setBacklight. frame. Qed.

Lemma updateHaptic_same_power now s : same_power s (updateHaptic now s).
Proof. unfold updateHaptic. frame. Qed.

(** [checkInternalButton] either calibrates or touches nothing but its own
    two variables. *)
Lemma checkInternalButton_calibrates now btnIsDown vbat s :
  calibration_due now btnIsDown s = true ->
  checkInternalButton now btnIsDown vbat s =
  set_int_btn_is_down false (calcSaveAnalogOffset vbat s).
Proof.
  unfold calibration_due. intros H.
  apply andb_prop in H. destruct H as (H & HT).
  apply andb_prop in H. destruct H as (HD & ->).
  unfold checkInternalButton. rewrite HD. cbn. rewrite HD, HT. reflexivity.
Qed.

Lemma checkInternalButton_quiet now btnIsDown vbat s :
  calibration_due now btnIsDown s = false ->
  let s' := checkInternalButton now btnIsDown vbat s in
  int_btn_is_down s' = btnIsDown /\
  out s' = out s /\
  pattern s' = pattern s /\
  lowBattery s' = lowBattery s /\
  halted s' = halted s /\
  edata s' = edata s /\
  sleepTimer s' = sleepTimer s /\
  txRetryCount s' = txRetryCount s /\
  pwr_key_is_down s' = pwr_key_is_down s /\
  lastPwrKeyDown s' = lastPwrKeyDown s.
Proof.
  unfold calibration_due, checkInternalButton, pattern.
  destruct (int_btn_is_down s) eqn:E, btnIsDown; cbn; rewrite ?E; cbn; intros H;
    rewrite ?H, ?Z.sub_diag; cbn; rewrite ?E; repeat split.
Qed.

Lemma calibration_due_button now btnIsDown s :
  calibration_due now btnIsDown s = true -> btnIsDown = true.
Proof.
  unfold calibration_due. destruct btnIsDown; [reflexivity|].
  rewrite andb_false_r. discriminate.
Qed.

Lemma checkInternalButton_same_power now btnIsDown vbat s :
  same_power s (checkInternalButton now btnIsDown vbat s).
Proof.
  destruct (calibration_due now btnIsDown s) eqn:EC.
  - rewrite (checkInternalButton_calibrates _ _ vbat _ EC).
    unfold calcSaveAnalogOffset, EEPROM_put, backlightDataSaved, same_power. cbn.
    repeat split; outputs; reflexivity.
  - destruct (checkInternalButton_quiet now btnIsDown vbat s EC)
      as (_ & O & _ & W & H & _ & T & _).
    unfold same_power. rewrite O, W, H, T. repeat split.
Qed.

Lemma checkInternalButton_txRetryCount now btnIsDown vbat s :
  txRetryCount (checkInternalButton now btnIsDown vbat s) = txRetryCount s.
Proof.
  destruct (calibration_due now btnIsDown s) eqn:EC.
  - rewrite (checkInternalButton_calibrates _ _ vbat _ EC). reflexivity.
  - apply (checkInternalButton_quiet now btnIsDown vbat s EC).
Qed.

Lemma OnDataSent_same_power tx_ok delivered s :
  same_power s (OnDataSent tx_ok delivered s).
Proof. unfold OnDataSent, sendCmd. frame. Qed.

Lemma scan_same_power now transitions :
  forall s, same_power s (scan now transitions s).
Proof.
  induction transitions as [|t ts IH]; intros s; cbn [scan fold_left].
  - apply same_power_refl.
  - eapply same_power_trans; [|apply IH].
    destruct t; [apply keyDown_same_power | apply keyUp_same_power].
Qed.

Lemma loop_same_power i s : same_power s (loop i s).
Proof.
  unfold loop.
  eapply same_power_trans; [|apply checkInternalButton_same_power].
  eapply same_power_trans; [|apply updateHaptic_same_power].
  eapply same_power_trans; [|apply updateBacklight_same_power].
  eapply same_power_trans; [|apply checkLongKeyPress_same_power].
  apply scan_same_power.
Qed.

(** The retry counter belongs to [OnDataSent] alone. *)
Lemma step_txRetryCount (s : state) (e : event) :
  match e with SendStatus _ _ => False | _ => True end ->
  txRetryCount (step s e) = txRetryCount s.
Proof.
  intros H. unfold step. destruct (halted s); [reflexivity|].
  destruct e; try contradiction.
  - apply keyDown_frame.
  - unfold keyUp, stepBacklightBrightness, setBacklight, backlightLowBattery, sendCmd,
      backlightLearnModeSent. by_cases.
  - unfold checkLongKeyPress, sendCmd, backlightDataSaved. by_cases.
  - unfold updateBacklight, setBacklight. by_cases.
  - unfold updateHaptic. by_cases.
  - apply checkInternalButton_txRetryCount.
  - unfold timerElapse, startDeepSleep, initRtcGpio. by_cases.
Qed.

Lemma run_txRetryCount (events : list event) :
  forall s : state,
    Forall (fun e => match e with SendStatus _ _ => False | _ => True end) events ->
    txRetryCount (run s events) = txRetryCount s.
Proof.
  induction events as [|e es IH]; intros s H; cbn [run fold_left]; [reflexivity|].
  inversion H; subst.
  change (txRetryCount (run (step s e) es) = txRetryCount s).
  rewrite IH by assumption. apply step_txRetryCount. assumption.
Qed.

(** C10.  A delivery success leaves the retry counter as it is.  So when a
    send succeeds after k failed attempts, the counter is still k when the
    next command goes out, whatever keys are pressed or polled in between,
    and that command is resent only 24 - k times before the next failure
    drops it. *)
Theorem success_keeps_retry_count
    (s : state) (k : nat) (tx_ok tx_drop : bool) (events : list event) (txs : list bool) :
  txRetryCount s = Z.of_nat k ->
  (k <= 24)%nat ->
  Forall (fun e => match e with SendStatus _ _ => False | _ => True end) events ->
  length txs = (24 - k)%nat ->
  let s1 := OnDataSent tx_ok true s in
  let s2 := run s1 events in
  let s3 := deliveryFailures txs s2 in
  let s4 := OnDataSent tx_drop false s3 in
  txRetryCount s1 = Z.of_nat k /\
  sent (out s1) = sent (out s) /\
  txRetryCount s2 = Z.of_nat k /\
  sent (out s3) = sent (out s2) ++ repeat (cmdData s2) (24 - k) /\
  txRetryCount s3 = 24 /\
  sent (out s4) = sent (out s3) /\
  txRetryCount s4 = 0.
Proof.
  intros Hk Hle Hev Hlen s1 s2 s3 s4.
  destruct (OnDataSent_success tx_ok s) as (T1 & _ & S1). fold s1 in T1, S1.
  assert (T2 : txRetryCount s2 = Z.of_nat k).
  { subst s2. rewrite run_txRetryCount by assumption. congruence. }
  destruct (deliveryFailures_resend txs s2) as (T3 & _ & S3).
  { lia. } { unfold MAX_TX_RETRY. lia. }
  fold s3 in T3, S3. rewrite Hlen in T3, S3.
  assert (T3' : txRetryCount s3 = 24) by lia.
  destruct (OnDataSent_drop tx_drop s3) as (T4 & _ & S4).
  { rewrite T3', uint32_small; unfold MAX_TX_RETRY; cbn; lia. }
  fold s4 in T4, S4.
  repeat split; try assumption; congruence.
Qed.

Lemma success_keeps_retry_count_witness :
  let s := deliveryFailures (repeat true 3) booted in
  let s1 := OnDataSent true true s in
  let s2 := run s1 [KeyDown 100 7; KeyUp true 7] in
  let s3 := deliveryFailures (repeat true 21) s2 in
  let s4 := OnDataSent true false s3 in
  txRetryCount s1 = 3 /\
  sent (out s1) = sent (out s) /\
  txRetryCount s2 = 3 /\
  sent (out s3) = sent (out s2) ++ repeat (cmdData s2) 21 /\
  txRetryCount s3 = 24 /\
  sent (out s4) = sent (out s3) /\
  txRetryCount s4 = 0.
Proof.
  refine (success_keeps_retry_count (deliveryFailures (repeat true 3) booted) 3
            true true [KeyDown 100 7; KeyUp true 7] (repeat true 21) _ _ _ _).
  - vm_compute. reflexivity.
  - lia.
  - repeat constructor.
  - vm_compute. reflexivity.
Defined.

(** C4.  Key 1 is pressed and released, which sends (1, send_ir); FN goes
    down before the delivery status arrives; the status is a failure.  The
    retry then sends (20, learn_ir), the pending command as the key press
    left it, not the (1, send_ir) that failed. *)
Theorem retry_sends_pending_not_last_sent :
  let s1 := run booted [KeyDown 100 1; KeyUp true 1] in
  let s2 := step s1 (KeyDown 180 FN_KEY) in
  let s3 := step s2 (SendStatus true false) in
  sent (out s1) = [{| key := 1; cmd := send_ir |}] /\
  txRetryCount s2 = 0 /\
  sent (out s3) = [{| key := 1; cmd := send_ir |}; {| key := 20; cmd := learn_ir |}].
Proof. vm_compute. repeat split. Qed.

(** ** The long press of PWR *)

Lemma same_hold_refl (s : state) : same_hold s s.
Proof. unfold same_hold. repeat split. Qed.

Lemma same_hold_trans (s1 s2 s3 : state) :
  same_hold s1 s2 -> same_hold s2 s3 -> same_hold s1 s3.
Proof. unfold same_hold. intuition congruence. Qed.

Lemma keyDown_same_hold now which s :
  which <> PWR_KEY -> same_hold s (keyDown now which s).
Proof.
  intros H. apply Z.eqb_neq in H. unfold same_hold.
  rewrite keyDown_pwr_key_is_down, keyDown_lastPwrKeyDown, keyDown_sent, H.
  repeat split. apply keyDown_frame.
Qed.

(** [keyUp] never sends a factory reset: it sends only when the pending
    action is not one. *)
Lemma keyUp_same_hold tx_ok which s :
  which <> PWR_KEY -> same_hold s (keyUp tx_ok which s).
Proof.
  intros H. apply Z.eqb_neq in H. unfold same_hold.
  unfold keyUp, stepBacklightBrightness, setBacklight, backlightLowBattery, sendCmd,
    backlightLearnModeSent.
  cbn. rewrite H.
  destruct (cmd (cmdData s)) eqn:EC; cbn [key_cmd_eqb]; rewrite ?orb_true_r, ?orb_false_r;
    case_ifs; repeat split; outputs; rewrite ?EC; cbn; rewrite ?app_nil_r; reflexivity.
Qed.

Lemma updateBacklight_same_hold now s : same_hold s (updateBacklight now s).
Proof. unfold updateBacklight, setBacklight, same_hold. by_cases; repeat split. Qed.

Lemma updateHaptic_same_hold now s : same_hold s (updateHaptic now s).
Proof. unfold updateHaptic, same_hold. by_cases; repeat split. Qed.

Lemma checkInternalButton_same_hold now btnIsDown vbat s :
  same_hold s (checkInternalButton now btnIsDown vbat s).
Proof.
  destruct (calibration_due now btnIsDown s) eqn:EC.
  - rewrite (checkInternalButton_calibrates _ _ vbat _ EC).
    unfold calcSaveAnalogOffset, EEPROM_put, backlightDataSaved, same_hold. cbn.
    repeat split; outputs; reflexivity.
  - destruct (checkInternalButton_quiet now btnIsDown vbat s EC)
      as (_ & O & _ & _ & H & _ & _ & _ & D & L).
    unfold same_hold. rewrite O, H, D, L. repeat split.
Qed.

Lemma OnDataSent_success_same_hold tx_ok s : same_hold s (OnDataSent tx_ok true s).
Proof. unfold OnDataSent, same_hold. by_cases; repeat split. Qed.

Lemma checkLongKeyPress_idle now tx_ok s :
  pwr_key_is_down s = false \/ uint32 (now - lastPwrKeyDown s) <= FACTORY_RESET_HOLD_MS ->
  checkLongKeyPress now tx_ok s = s.
Proof.
  intros H. unfold checkLongKeyPress.
  destruct H as [-> | H]; [reflexivity|].
  apply Z.ltb_ge in H. rewrite H, andb_false_r. reflexivity.
Qed.

Lemma checkLongKeyPress_fires now tx_ok s :
  pwr_key_is_down s = true ->
  FACTORY_RESET_HOLD_MS < uint32 (now - lastPwrKeyDown s) ->
  let s' := checkLongKeyPress now tx_ok s in
  sent (out s') = sent (out s) ++ [{| key := key (cmdData s); cmd := f_reset |}] /\
  pattern s' = dataSavedPattern /\
  pwr_key_is_down s' = false /\
  halted s' = halted s /\
  printed "Sending Factory Reset" (out s') = S (printed "Sending Factory Reset" (out s)).
Proof.
  intros HD HT. apply Z.ltb_lt in HT.
  unfold checkLongKeyPress, sendCmd, backlightDataSaved, pattern.
  rewrite HD, HT. by_cases; repeat split; lia.
Qed.

(** While PWR is down and no poll has found the hold time exceeded, the
    press stays recorded and no factory reset goes out. *)
Lemma step_before_expiry (t0 : Z) (s : state) (e : event) :
  halted s = false ->
  pwr_key_is_down s = true ->
  lastPwrKeyDown s = t0 ->
  during_hold e ->
  ~ hold_expired t0 e ->
  same_hold s (step s e).
Proof.
  intros HH HD HL He Hn. unfold step. rewrite HH.
  destruct e; cbn in He, Hn; try contradiction.
  - apply keyDown_same_hold; assumption.
  - apply keyUp_same_hold; assumption.
  - rewrite checkLongKeyPress_idle; [apply same_hold_refl|].
    right. rewrite HL. lia.
  - apply updateBacklight_same_hold.
  - apply updateHaptic_same_hold.
  - apply checkInternalButton_same_hold.
  - subst delivered. apply OnDataSent_success_same_hold.
Qed.

Lemma run_before_expiry (t0 : Z) (events : list event) :
  forall s : state,
    halted s = false ->
    pwr_key_is_down s = true ->
    lastPwrKeyDown s = t0 ->
    Forall during_hold events ->
    Forall (fun e => ~ hold_expired t0 e) events ->
    same_hold s (run s events).
Proof.
  induction events as [|e es IH]; intros s HH HD HL He Hn; cbn [run fold_left].
  - apply same_hold_refl.
  - inversion He; subst. inversion Hn; subst.
    pose proof (step_before_expiry (lastPwrKeyDown s) s e HH HD eq_refl H1 H3) as F.
    eapply same_hold_trans; [exact F|].
    destruct F as (F1 & F2 & F3 & _).
    apply IH; try assumption; congruence.
Qed.

(** Once the press is no longer recorded, nothing sends a factory reset. *)
Lemma step_after_expiry (s : state) (e : event) :
  pwr_key_is_down s = false ->
  during_hold e ->
  same_hold s (step s e).
Proof.
  intros HD He. unfold step.
  destruct (halted s); [apply same_hold_refl|].
  destruct e; cbn in He; try contradiction.
  - apply keyDown_same_hold; assumption.
  - apply keyUp_same_hold; assumption.
  - rewrite checkLongKeyPress_idle; [apply same_hold_refl|]. left. assumption.
  - apply updateBacklight_same_hold.
  - apply updateHaptic_same_hold.
  - apply checkInternalButton_same_hold.
  - subst delivered. apply OnDataSent_success_same_hold.
Qed.

Lemma run_after_expiry (events : list event) :
  forall s : state,
    pwr_key_is_down s = false ->
    Forall during_hold events ->
    same_hold s (run s events).
Proof.
  induction events as [|e es IH]; intros s HD He; cbn [run fold_left].
  - apply same_hold_refl.
  - inversion He; subst.
    pose proof (step_after_expiry s e HD H1) as F.
    eapply same_hold_trans; [exact F|].
    destruct F as (F1 & _).
    apply IH; try assumption; congruence.
Qed.

Lemma hold_expired_dec (t0 : Z) (e : event) : hold_expired t0 e \/ ~ hold_expired t0 e.
Proof. destruct e; cbn; try (right; tauto). lia. Qed.

(** The first poll that finds the hold time exceeded. *)
Lemma first_expired (t0 : Z) (events : list event) :
  Exists (hold_expired t0) events ->
  exists pre now tx_ok post,
    events = pre ++ LongPressPoll now tx_ok :: post /\
    Forall (fun e => ~ hold_expired t0 e) pre /\
    FACTORY_RESET_HOLD_MS < uint32 (now - t0).
Proof.
  induction events as [|e es IH]; intros H; [inversion H|].
  destruct (hold_expired_dec t0 e) as [Y | N].
  - destruct e; cbn in Y; try contradiction.
    exists [], now, tx_ok, es. repeat split; [constructor | exact Y].
  - inversion H; subst; [contradiction|].
    destruct (IH H1) as (pre & now & tx & post & -> & F & T).
    exists (e :: pre), now, tx, post. repeat split; [constructor; assumption | exact T].
Qed.

Lemma run_app (s : state) (l1 l2 : list event) : run s (l1 ++ l2) = run (run s l1) l2.
Proof. apply fold_left_app. Qed.

(** C5, as the code has it.  PWR goes down at [t0]; while it stays down,
    other keys may go down and up, the loop polls and deliveries are
    confirmed.  If one of the polls of
    [checkLongKeyPress] finds more than 8000 ms elapsed since [t0], then the
    first such poll sends a factory reset and sets the "data saved" pattern,
    and it is the only factory reset of the hold: none goes out before it, and
    none after it, since it clears the recorded press. *)
Theorem long_press_sends_one_factory_reset
    (s : state) (t0 : Z) (events : list event) :
  halted s = false ->
  Forall during_hold events ->
  Exists (hold_expired t0) events ->
  exists pre now tx_ok post,
    events = pre ++ LongPressPoll now tx_ok :: post /\
    8000 < uint32 (now - t0) /\
    let s1 := run (keyDown t0 PWR_KEY s) pre in
    let s2 := step s1 (LongPressPoll now tx_ok) in
    let s3 := run s2 post in
    let reset := {| key := key (cmdData s1); cmd := f_reset |} in
    s3 = run (keyDown t0 PWR_KEY s) events /\
    factoryResets (sent (out s1)) = factoryResets (sent (out s)) /\
    sent (out s2) = sent (out s1) ++ [reset] /\
    pattern s2 = dataSavedPattern /\
    pwr_key_is_down s2 = false /\
    factoryResets (sent (out s3)) = factoryResets (sent (out s)) ++ [reset] /\
    pwr_key_is_down s3 = false.
Proof.
  intros HH He Hx.
  destruct (first_expired t0 events Hx) as (pre & now & tx & post & -> & Hpre & HT).
  exists pre, now, tx, post.
  split; [reflexivity|]. split; [exact HT|].
  intros s1 s2 s3 reset.
  apply Forall_app in He. destruct He as (He1 & He2).
  inversion He2 as [|? ? _ He3]; subst.
  set (s0 := keyDown t0 PWR_KEY s) in *.
  assert (D0 : pwr_key_is_down s0 = true).
  { subst s0. rewrite keyDown_pwr_key_is_down. reflexivity. }
  assert (L0 : lastPwrKeyDown s0 = t0).
  { subst s0. rewrite keyDown_lastPwrKeyDown. reflexivity. }
  assert (H0 : halted s0 = false).
  { subst s0. destruct (keyDown_frame t0 PWR_KEY s) as (_ & _ & _ & _ & -> & _).
    exact HH. }
  assert (S0 : sent (out s0) = sent (out s)) by apply keyDown_sent.
  destruct (run_before_expiry t0 pre s0 H0 D0 L0 He1 Hpre) as (D1 & L1 & H1 & F1).
  fold s1 in D1, L1, H1, F1.
  rewrite D0 in D1. rewrite L0 in L1. rewrite H0 in H1. rewrite S0 in F1.
  assert (E2 : s2 = checkLongKeyPress now tx s1).
  { subst s2. unfold step. rewrite H1. reflexivity. }
  destruct (checkLongKeyPress_fires now tx s1 D1) as (S2 & P2 & D2 & _).
  { rewrite L1. exact HT. }
  rewrite <- E2 in S2, P2, D2.
  destruct (run_after_expiry post s2 D2 He3) as (D3 & _ & _ & F3).
  fold s3 in D3, F3.
  repeat split.
  - subst s3 s2 s1. rewrite run_app. reflexivity.
  - exact F1.
  - exact S2.
  - exact P2.
  - exact D2.
  - rewrite F3, S2, factoryResets_app, F1. reflexivity.
  - rewrite D3. exact D2.
Qed.

Lemma long_press_sends_one_factory_reset_witness :
  exists pre now tx_ok post,
    [KeyDown 2000 7; LongPressPoll 5000 true; KeyUp true 7; SendStatus true true;
     LongPressPoll 9001 true; LongPressPoll 9500 true]
    = pre ++ LongPressPoll now tx_ok :: post /\
    8000 < uint32 (now - 1000) /\
    let s1 := run (keyDown 1000 PWR_KEY booted) pre in
    let s2 := step s1 (LongPressPoll now tx_ok) in
    let s3 := run s2 post in
    let reset := {| key := key (cmdData s1); cmd := f_reset |} in
    s3 = run (keyDown 1000 PWR_KEY booted)
           [KeyDown 2000 7; LongPressPoll 5000 true; KeyUp true 7; SendStatus true true;
            LongPressPoll 9001 true; LongPressPoll 9500 true] /\
    factoryResets (sent (out s1)) = factoryResets (sent (out booted)) /\
    sent (out s2) = sent (out s1) ++ [reset] /\
    pattern s2 = dataSavedPattern /\
    pwr_key_is_down s2 = false /\
    factoryResets (sent (out s3)) = factoryResets (sent (out booted)) ++ [reset] /\
    pwr_key_is_down s3 = false.
Proof.
  refine (long_press_sends_one_factory_reset booted 1000 _ _ _ _).
  - vm_compute. reflexivity.
  - repeat constructor; discriminate.
  - do 4 apply Exists_cons_tl. apply Exists_cons_hd. vm_compute. reflexivity.
Defined.

(** C5 as claimed fails at the boundary.  PWR goes down at 1000 ms, is
    polled while held, the last time at 9000 ms, when exactly 8000 ms have
    elapsed, and is released then: no factory reset is sent, and the release
    sends an ordinary (5, send_ir). *)
Lemma hold_of_exactly_8000_ms_sends_no_reset :
  let events := [KeyDown 1000 PWR_KEY;
                 LongPressPoll 3000 true; LongPressPoll 5000 true;
                 LongPressPoll 7000 true; LongPressPoll 9000 true;
                 KeyUp true PWR_KEY] in
  let s := run booted events in
  uint32 (9000 - 1000) = 8000 /\
  halted s = false /\
  factoryResets (sent (out s)) = [] /\
  sent (out s) = [{| key := 5; cmd := send_ir |}] /\
  printed "Sending Factory Reset" (out s) = 0%nat.
Proof. vm_compute. repeat split. Qed.

(** ** Battery monitor *)

Lemma filteredReading_range vbat s : 0 <= filteredReading vbat s < 65536.
Proof. unfold filteredReading. apply uint16_range. Qed.

Lemma checkInternalButton_quiet_effect now btnIsDown vbat s :
  let s' := checkInternalButton now btnIsDown vbat s in
  printed "Battery CRITICAL!" (out s') = printed "Battery CRITICAL!" (out s) /\
  printed "Battery Low!" (out s') = printed "Battery Low!" (out s) /\
  (int_btn_is_down s' = true -> btnIsDown = true) /\
  (btnIsDown = false -> int_btn_is_down s' = false /\ pattern s' = pattern s).
Proof.
  destruct (calibration_due now btnIsDown s) eqn:EC.
  - rewrite (checkInternalButton_calibrates _ _ vbat _ EC).
    pose proof (calibration_due_button _ _ _ EC) as B.
    unfold calcSaveAnalogOffset, EEPROM_put, backlightDataSaved. cbn.
    repeat split; outputs; try reflexivity; congruence.
  - destruct (checkInternalButton_quiet now btnIsDown vbat s EC)
      as (I2 & O2 & P2 & _).
    cbv zeta. rewrite O2, I2. repeat split; congruence.
Qed.

Lemma startDeepSleep_effect s :
  let s' := startDeepSleep s in
  halted s' = true /\
  lowBattery s' = lowBattery s /\
  pattern s' = pattern s /\
  printed "Battery CRITICAL!" (out s') = printed "Battery CRITICAL!" (out s) /\
  printed "Battery Low!" (out s') = printed "Battery Low!" (out s).
Proof.
  unfold startDeepSleep, initRtcGpio. cbn. repeat split; outputs; reflexivity.
Qed.

Section BatteryCheck.

Variables (now : Z) (btnIsDown : bool) (vbat : sense_line) (s : state).

Let r := filteredReading vbat s.
Let s' := checkBattery now btnIsDown vbat s.

Lemma checkBattery_critical :
  r < VBAT_CRITICAL ->
  printed "Battery CRITICAL!" (out s') = S (printed "Battery CRITICAL!" (out s)) /\
  printed "Battery Low!" (out s') = printed "Battery Low!" (out s) /\
  (btnIsDown = false ->
     halted s' = true /\ pattern s' = pattern s /\ lowBattery s' = lowBattery s) /\
  (halted s' = true \/
   halted s' = halted s /\ lowBattery s' = true /\ pattern s' = learnModePattern).
Proof.
  subst r s'. unfold checkBattery. cbv zeta.
  generalize (filteredReading vbat s). intros v H.
  apply Z.ltb_lt in H. rewrite H.
  set (s1 := print "Battery CRITICAL!" _).
  assert (C1 : printed "Battery CRITICAL!" (out s1) = S (printed "Battery CRITICAL!" (out s))).
  { subst s1. cbn. outputs. lia. }
  assert (L1 : printed "Battery Low!" (out s1) = printed "Battery Low!" (out s)).
  { subst s1. cbn. outputs. lia. }
  assert (P1 : pattern s1 = pattern s) by reflexivity.
  assert (W1 : lowBattery s1 = lowBattery s) by reflexivity.
  assert (H1 : halted s1 = halted s) by reflexivity.
  clearbody s1.
  pose proof (checkInternalButton_quiet_effect now btnIsDown
                (after samples vbat) s1) as (C2 & L2 & B2 & Q2).
  pose proof (checkInternalButton_same_power now btnIsDown
                (after samples vbat) s1) as (_ & _ & W2 & H2 & _).
  set (s2 := checkInternalButton _ _ _ s1) in *. clearbody s2.
  destruct (int_btn_is_down s2) eqn:E2.
  - specialize (B2 eq_refl).
    unfold backlightLearnModeSent, pattern. cbn.
    repeat split; outputs; try congruence; try lia.
    right. repeat split. congruence.
  - destruct (startDeepSleep_effect s2) as (A1 & A2 & A3 & A4 & A5).
    repeat split; try congruence; try (left; assumption).
    destruct (Q2 H0) as (_ & Q3). congruence.
Qed.

Lemma checkBattery_low :
  VBAT_CRITICAL <= r < VBAT_LOW ->
  printed "Battery CRITICAL!" (out s') = printed "Battery CRITICAL!" (out s) /\
  halted s' = halted s /\
  lowBattery s' = true /\
  (lowBattery s = false ->
     pattern s' = lowBatteryPattern /\
     printed "Battery Low!" (out s') = S (printed "Battery Low!" (out s))) /\
  (lowBattery s = true ->
     pattern s' = pattern s /\
     printed "Battery Low!" (out s') = printed "Battery Low!" (out s)).
Proof.
  subst r s'. unfold checkBattery, backlightLowBattery, pattern. cbv zeta.
  generalize (filteredReading vbat s). intros v (HC & HL).
  apply Z.ltb_ge in HC. apply Z.ltb_lt in HL. rewrite HC, HL. cbn.
  destruct (lowBattery s) eqn:EW; cbn; outputs;
    repeat split; try discriminate; try lia; try assumption; reflexivity.
Qed.

Lemma checkBattery_normal :
  VBAT_LOW <= r ->
  printed "Battery CRITICAL!" (out s') = printed "Battery CRITICAL!" (out s) /\
  printed "Battery Low!" (out s') = printed "Battery Low!" (out s) /\
  halted s' = halted s /\
  lowBattery s' = false /\
  pattern s' = pattern s.
Proof.
  subst r s'. unfold checkBattery, pattern. cbv zeta.
  generalize (filteredReading vbat s). intros v HL.
  assert (HC : VBAT_CRITICAL <= v) by (unfold VBAT_CRITICAL, VBAT_LOW in *; lia).
  apply Z.ltb_ge in HC, HL. rewrite HC, HL. cbn.
  destruct (lowBattery s) eqn:EW; cbn; outputs; repeat split; try assumption; lia.
Qed.

Lemma checkBattery_batteryChecks :
  batteryChecks (out s') = S (batteryChecks (out s)).
Proof.
  subst s'. unfold checkBattery. cbv zeta.
  generalize (filteredReading vbat s). intros v.
  destruct (v <? VBAT_CRITICAL) eqn:EC; [|destruct (v <? VBAT_LOW) eqn:EL].
  - set (s1 := print "Battery CRITICAL!" _).
    assert (B1 : batteryChecks (out s1) = S (batteryChecks (out s))).
    { subst s1. cbn. outputs. lia. }
    clearbody s1.
    pose proof (checkInternalButton_same_power now btnIsDown
                  (after samples vbat) s1) as (_ & _ & _ & _ & B2).
    set (s2 := checkInternalButton _ _ _ s1) in *. clearbody s2.
    unfold batteryChecks in *.
    destruct (int_btn_is_down s2); unfold startDeepSleep, initRtcGpio, backlightLearnModeSent;
      cbn; outputs; lia.
  - by_cases; lia.
  - by_cases; lia.
Qed.

End BatteryCheck.

(** A check that returns leaves the flag set exactly when the reading is
    below the Low threshold. *)
Lemma battery_branches now btnIsDown vbat s :
  halted s = false ->
  halted (checkBattery now btnIsDown vbat s) = false ->
  lowBattery (checkBattery now btnIsDown vbat s) = (filteredReading vbat s <? VBAT_LOW).
Proof.
  intros H0 H1.
  destruct (Z.ltb_spec (filteredReading vbat s) VBAT_CRITICAL) as [C | C].
  - destruct (checkBattery_critical now btnIsDown vbat s C) as (_ & _ & _ & [A | (_ & A & _)]).
    + congruence.
    + rewrite A. symmetry. apply Z.ltb_lt. unfold VBAT_CRITICAL, VBAT_LOW in *. lia.
  - destruct (Z.ltb_spec (filteredReading vbat s) VBAT_LOW) as [L | L].
    + apply (checkBattery_low now btnIsDown vbat s (conj C L)).
    + apply (checkBattery_normal now btnIsDown vbat s L).
Qed.

Lemma checkBattery_bootCount now btnIsDown vbat s :
  bootCount (checkBattery now btnIsDown vbat s) = bootCount s.
Proof.
  unfold checkBattery. cbv zeta.
  generalize (filteredReading vbat s). intros v.
  destruct (v <? VBAT_CRITICAL); [|destruct (v <? VBAT_LOW)].
  - set (s1 := print "Battery CRITICAL!" _).
    assert (C1 : bootCount s1 = bootCount s) by reflexivity. clearbody s1.
    assert (C2 : bootCount (checkInternalButton now btnIsDown (after samples vbat) s1)
                 = bootCount s1).
    { destruct (calibration_due now btnIsDown s1) eqn:EC.
      - rewrite (checkInternalButton_calibrates _ _ _ _ EC). reflexivity.
      - unfold checkInternalButton.
        destruct (int_btn_is_down s1) eqn:E, btnIsDown; cbn; rewrite ?E; cbn;
          unfold calibration_due in EC; rewrite E in EC; cbn in EC;
          rewrite ?EC, ?Z.sub_diag; reflexivity. }
    set (s2 := checkInternalButton _ _ _ s1) in *. clearbody s2.
    destruct (int_btn_is_down s2); cbn; congruence.
  - by_cases.
  - by_cases.
Qed.

(** C9.  The filtered reading is a 16-bit value, and the check sorts it by
    the two thresholds: below 3630 it is Critical, from 3630 up to but not
    including 3680 it is Low, from 3680 on it is Normal. *)
Theorem battery_classification_thresholds
    (now : Z) (btnIsDown : bool) (vbat : sense_line) (s : state) :
  let r := filteredReading vbat s in
  let s' := checkBattery now btnIsDown vbat s in
  0 <= r < 65536 /\
  (r < 3630 -> found s s' Critical) /\
  (3630 <= r < 3680 -> found s s' Low) /\
  (3680 <= r -> found s s' Normal).
Proof.
  intros r s'. split; [apply filteredReading_range|].
  split; [|split]; intros H; unfold found.
  - destruct (checkBattery_critical now btnIsDown vbat s H) as (C & _ & _ & [A | (A & B & _)]).
    + split; [exact C | left; exact A].
    + split; [exact C | right; split; assumption].
  - destruct (checkBattery_low now btnIsDown vbat s H) as (C & A & W & _).
    repeat split; assumption.
  - destruct (checkBattery_normal now btnIsDown vbat s H) as (C & _ & A & W & _).
    repeat split; assumption.
Qed.

Lemma battery_classification_thresholds_witness :
  found booted (checkBattery 900 false {| analogRead := fun _ => 3600 |} booted) Critical /\
  found booted (checkBattery 900 false {| analogRead := fun _ => 3650 |} booted) Low /\
  found booted (checkBattery 900 false {| analogRead := fun _ => 3668 |} booted) Normal.
Proof.
  split; [|split].
  - refine (proj1 (proj2 (battery_classification_thresholds 900 false {| analogRead := fun _ => 3600 |} booted)) _).
    vm_compute. reflexivity.
  - refine (proj1 (proj2 (proj2
              (battery_classification_thresholds 900 false {| analogRead := fun _ => 3650 |} booted))) _).
    vm_compute. split; [discriminate | reflexivity].
  - refine (proj2 (proj2 (proj2
              (battery_classification_thresholds 900 false {| analogRead := fun _ => 3668 |} booted))) _).
    vm_compute. discriminate.
Defined.

Lemma filteredReading_edata vbat s s' :
  edata s' = edata s -> filteredReading vbat s' = filteredReading vbat s.
Proof. intros H. unfold filteredReading. rewrite H. reflexivity. Qed.

Lemma checkBattery_low_edata now btnIsDown vbat s :
  VBAT_CRITICAL <= filteredReading vbat s < VBAT_LOW ->
  edata (checkBattery now btnIsDown vbat s) = edata s.
Proof.
  unfold checkBattery, backlightLowBattery. cbv zeta.
  generalize (filteredReading vbat s). intros v (HC & HL).
  apply Z.ltb_ge in HC. apply Z.ltb_lt in HL. rewrite HC, HL.
  destruct (lowBattery s) eqn:EW; cbn; rewrite EW; reflexivity.
Qed.

(** Once the flag is set, checks that read Low raise no alert. *)
Lemma runChecks_low_quiet (checks : list battery_check) :
  forall s : state,
    lowBattery s = true ->
    Forall (fun c => 3630 <= filteredReading (check_vbat c) s < 3680) checks ->
    let s' := runChecks checks s in
    lowBatteryAlerts (out s') = lowBatteryAlerts (out s) /\
    pattern s' = pattern s /\
    lowBattery s' = true.
Proof.
  induction checks as [|c cs IH]; intros s HW HF; cbn [runChecks fold_left].
  - repeat split. exact HW.
  - inversion HF as [|? ? Hc Hcs]; subst.
    destruct (checkBattery_low (check_millis c) (check_btnIsDown c) (check_vbat c) s Hc)
      as (_ & _ & W1 & _ & Q).
    destruct (Q HW) as (P1 & A1).
    pose proof (checkBattery_low_edata (check_millis c) (check_btnIsDown c) _ s Hc) as E1.
    set (s1 := checkBattery _ _ _ s) in *.
    destruct (IH s1 W1) as (A2 & P2 & W2).
    { eapply Forall_impl; [|exact Hcs]. cbn. intros a Ha.
      rewrite (filteredReading_edata _ s s1 E1). exact Ha. }
    unfold runChecks in A2, P2, W2. unfold lowBatteryAlerts in *.
    rewrite A2, P2. repeat split; assumption.
Qed.

(** C8, as the code has it.  A check that reads Low raises the alert and
    sets the low-battery pattern when the flag was clear, and does neither when
    the flag was set; so any number of checks in a row that read Low, starting
    with the flag clear, raise the alert exactly once.  A check that reads
    Critical with the internal button up sets no pattern: it stops the
    processor. *)
Theorem low_battery_alert_is_edge_triggered
    (now : Z) (btnIsDown : bool) (vbat : sense_line) (s : state) :
  let r := filteredReading vbat s in
  let s' := checkBattery now btnIsDown vbat s in
  (3630 <= r < 3680 -> lowBattery s = false ->
     lowBatteryAlerts (out s') = S (lowBatteryAlerts (out s)) /\
     pattern s' = lowBatteryPattern /\
     lowBattery s' = true) /\
  (3630 <= r < 3680 -> lowBattery s = true ->
     lowBatteryAlerts (out s') = lowBatteryAlerts (out s) /\
     pattern s' = pattern s /\
     lowBattery s' = true) /\
  (3630 <= r < 3680 -> lowBattery s = false ->
     forall checks : list battery_check,
       Forall (fun c => 3630 <= filteredReading (check_vbat c) s < 3680) checks ->
       lowBatteryAlerts (out (runChecks checks s')) = S (lowBatteryAlerts (out s))) /\
  (r < 3630 -> btnIsDown = false ->
     halted s' = true /\
     pattern s' = pattern s /\
     lowBatteryAlerts (out s') = lowBatteryAlerts (out s)).
Proof.
  intros r s'. unfold lowBatteryAlerts.
  split; [|split; [|split]].
  - intros H HW.
    destruct (checkBattery_low now btnIsDown vbat s H) as (_ & _ & W & Q & _).
    destruct (Q HW) as (P & A). repeat split; assumption.
  - intros H HW.
    destruct (checkBattery_low now btnIsDown vbat s H) as (_ & _ & W & _ & Q).
    destruct (Q HW) as (P & A). repeat split; assumption.
  - intros H HW checks HF.
    destruct (checkBattery_low now btnIsDown vbat s H) as (_ & _ & W & Q & _).
    destruct (Q HW) as (_ & A).
    pose proof (checkBattery_low_edata now btnIsDown vbat s H) as E.
    destruct (runChecks_low_quiet checks s' W) as (A' & _).
    { eapply Forall_impl; [|exact HF]. cbn. intros a Ha.
      subst s'. rewrite (filteredReading_edata _ s _ E). exact Ha. }
    unfold lowBatteryAlerts in A'. rewrite A'. exact A.
  - intros H HB.
    destruct (checkBattery_critical now btnIsDown vbat s H) as (_ & L & Q & _).
    destruct (Q HB) as (A & P & _). repeat split; assumption.
Qed.

Lemma low_battery_alert_is_edge_triggered_witness :
  let low := {| analogRead := fun _ => 3650 |} in
  let s' := checkBattery 900 false low booted in
  lowBatteryAlerts (out s') = S (lowBatteryAlerts (out booted)) /\
  pattern s' = lowBatteryPattern /\
  lowBattery s' = true.
Proof.
  refine (proj1 (low_battery_alert_is_edge_triggered 900 false
                   {| analogRead := fun _ => 3650 |} booted) _ _).
  - vm_compute. split; [discriminate | reflexivity].
  - vm_compute. reflexivity.
Defined.

(** C8 as claimed fails on the way into Critical.  The device booted at
    3912, Normal; the next check reads 3512 with the internal button up.  All
    it does is announce the level and go to sleep: no pattern is set, the
    backlight is not written. *)
Lemma critical_battery_sets_no_pattern :
  let s := checkBattery 60000 false {| analogRead := fun _ => 3500 |} booted in
  bootReading example_boot = 3912 /\
  lowBattery booted = false /\
  filteredReading {| analogRead := fun _ => 3500 |} booted = 3512 /\
  out s = out booted ++
          [SerialStr "Battery Level: "; SerialNum 3512; SerialStr "Battery CRITICAL!";
           Ext0Wakeup 4; RtcGpioHold 14 true; SerialStr "Entering Deep Sleep";
           DeepSleepStart] /\
  halted s = true /\
  pattern s = pattern booted /\
  pattern s = (0, 0, 0, 0).
Proof. vm_compute. repeat split. Qed.

(** ** Boot *)

Lemma only_output_refl (s : state) : only_output s s.
Proof. exists []. split; [|reflexivity]. destruct s. cbn. rewrite app_nil_r. reflexivity. Qed.

Lemma only_output_trans (s1 s2 s3 : state) :
  only_output s1 s2 -> only_output s2 s3 -> only_output s1 s3.
Proof.
  intros (l1 & -> & B1) (l2 & -> & B2). exists (l1 ++ l2). split.
  - cbn. rewrite app_assoc. reflexivity.
  - unfold batteryChecks in *. rewrite printed_app, B1, B2. reflexivity.
Qed.

Lemma only_output_emit (o : output) (s : state) :
  batteryChecks [o] = 0%nat -> only_output s (emit o s).
Proof. intros H. exists [o]. split; [reflexivity | exact H]. Qed.

Ltac emits :=
  repeat first
    [ apply only_output_refl
    | eapply only_output_trans; [|apply only_output_emit; reflexivity] ].

Lemma print_wakeup_trigger_only_output cause s :
  only_output s (print_wakeup_trigger cause s).
Proof. destruct cause; unfold print_wakeup_trigger, print, printValue, printNum; emits. Qed.

Lemma initEsp32Now_only_output b s : only_output s (initEsp32Now b s).
Proof.
  unfold initEsp32Now, setBrodcastAddr.
  change (memcmp_eq [255; 255; 255; 255; 255; 255] IR_BLASTER_MAC) with true.
  cbn [negb]. cbv zeta.
  destruct (esp_now_init_ok b), (esp_now_add_peer_ok b); cbn [negb];
    unfold print, printValue; emits.
Qed.

Lemma printAddressBytes_only_output (bytes : list Z) :
  forall s, only_output s (printAddressBytes bytes s).
Proof.
  induction bytes as [|b [|b' rest] IH]; intros s.
  - apply only_output_refl.
  - cbn. emits.
  - change (only_output s (printAddressBytes (b' :: rest)
                             (print ":" (emit (SerialHex b) s)))).
    eapply only_output_trans; [|apply IH]. unfold print. emits.
Qed.

(** What a step that only writes leaves as it was. *)
Lemma only_output_fields (s s' : state) :
  only_output s s' ->
  batteryChecks (out s') = batteryChecks (out s) /\
  edata s' = edata s /\
  lowBattery s' = lowBattery s /\
  halted s' = halted s /\
  int_btn_is_down s' = int_btn_is_down s /\
  bootCount s' = bootCount s.
Proof.
  intros (l & -> & B). cbn. unfold batteryChecks in *.
  rewrite printed_app, B, Nat.add_0_r. repeat split.
Qed.

Lemma filteredReading_boot (b : boot_inputs) (s : state) :
  edata s = stored b -> filteredReading (boot_vbat b) s = bootReading b.
Proof. intros H. unfold filteredReading, bootReading. rewrite H. reflexivity. Qed.

Section Setup.

Variables (rtc_bootCount rtc_backlightBrightness : Z) (b : boot_inputs).

Let s0 := setup b (startup rtc_bootCount rtc_backlightBrightness).

(** [setup] makes one battery check; when the check returns, the flag it
    left decides the alarm of the sleep timer. *)
Lemma setup_effect :
  batteryChecks (out s0) = 1%nat /\
  (halted s0 = false ->
   lowBattery s0 = (bootReading b <? VBAT_LOW) /\
   sleepTimer s0 =
     {| tcounter := 0;
        talarm := if bootReading b <? VBAT_LOW then 10000000 else 60000000;
        talarm_enabled := true |} /\
   bootCount s0 = uint32 (rtc_bootCount + 1)).
Proof.
  subst s0. unfold setup. cbv zeta.
  set (s5 := printNum _ (print "Analog Offset: " _)).
  assert (O5 : only_output (set_edata (stored b)
                              (startup rtc_bootCount rtc_backlightBrightness)) s5).
  { subst s5. unfold print, printNum.
    eapply only_output_trans; [|apply only_output_emit; reflexivity].
    eapply only_output_trans; [|apply only_output_emit; reflexivity].
    eapply only_output_trans; [|apply only_output_emit; reflexivity].
    eapply only_output_trans; [|apply print_wakeup_trigger_only_output].
    apply initEsp32Now_only_output. }
  clearbody s5.
  apply only_output_fields in O5. cbn in O5.
  destruct O5 as (B5 & E5 & W5 & H5 & _ & C5).
  pose proof (checkBattery_batteryChecks (boot_millis b) (boot_btnIsDown b) (boot_vbat b) s5) as B6.
  pose proof (battery_branches (boot_millis b) (boot_btnIsDown b) (boot_vbat b) s5) as R6.
  pose proof (checkBattery_bootCount (boot_millis b) (boot_btnIsDown b) (boot_vbat b) s5) as C6.
  rewrite (filteredReading_boot b s5 E5) in R6.
  set (s6 := checkBattery _ _ _ s5) in *. clearbody s6.
  rewrite B5 in B6. rewrite H5 in R6. rewrite C5 in C6.
  destruct (halted s6) eqn:H6.
  - split; [exact B6 | congruence].
  - specialize (R6 eq_refl eq_refl).
    pose proof (printAddressBytes_only_output
                  (broadcastAddress (edata s6))
                  (print "Paired to MAC: "
                     (printNum (uint32 (bootCount s6 + 1))
                        (print "Boot number: "
                           (set_bootCount (uint32 (bootCount s6 + 1)) s6))))) as OA.
    unfold printBrodcastAddress, clearRtcGpioHolds, startSleepTimer, setBacklight. cbn.
    set (sA := printAddressBytes _ _) in *. clearbody sA.
    apply only_output_fields in OA. cbn in OA.
    destruct OA as (BA & _ & WA & _ & _ & CA).
    unfold batteryChecks in *. rewrite !printed_app, BA. cbn.
    rewrite WA, R6.
    split; [outputs; rewrite B6; reflexivity|].
    intros _. rewrite CA, C6. repeat split.
Qed.

End Setup.

(** ** Sleep timer *)

Lemma timerElapse_alarm us s :
  talarm (sleepTimer (timerElapse us s)) = talarm (sleepTimer s) /\
  talarm_enabled (sleepTimer (timerElapse us s)) = talarm_enabled (sleepTimer s).
Proof. unfold timerElapse, startDeepSleep, initRtcGpio. by_cases; split; reflexivity. Qed.

Lemma step_alarm (s : state) (e : event) :
  talarm (sleepTimer (step s e)) = talarm (sleepTimer s) /\
  talarm_enabled (sleepTimer (step s e)) = talarm_enabled (sleepTimer s).
Proof.
  unfold step. destruct (halted s); [split; reflexivity|].
  destruct e.
  - destruct (keyDown_same_power now which s) as (A & B & _). split; assumption.
  - destruct (keyUp_same_power tx_ok which s) as (A & B & _). split; assumption.
  - destruct (checkLongKeyPress_same_power now tx_ok s) as (A & B & _). split; assumption.
  - destruct (updateBacklight_same_power now s) as (A & B & _). split; assumption.
  - destruct (updateHaptic_same_power now s) as (A & B & _). split; assumption.
  - destruct (checkInternalButton_same_power now btnIsDown vbat s) as (A & B & _).
    split; assumption.
  - destruct (OnDataSent_same_power tx_ok delivered s) as (A & B & _). split; assumption.
  - apply timerElapse_alarm.
Qed.

Lemma run_alarm (events : list event) :
  forall s : state,
    talarm (sleepTimer (run s events)) = talarm (sleepTimer s) /\
    talarm_enabled (sleepTimer (run s events)) = talarm_enabled (sleepTimer s).
Proof.
  induction events as [|e es IH]; intros s; [split; reflexivity|].
  change (run s (e :: es)) with (run (step s e) es).
  destruct (IH (step s e)) as (A & B). destruct (step_alarm s e) as (C & D).
  split; congruence.
Qed.

Lemma timerElapse_halts us s :
  halted s = false ->
  tcounter (sleepTimer s) = 0 ->
  talarm_enabled (sleepTimer s) = true ->
  halted (timerElapse us s) = (talarm (sleepTimer s) <=? us).
Proof.
  intros H C E. unfold timerElapse, startDeepSleep, initRtcGpio.
  rewrite C, E. cbn [andb Z.add].
  destruct (talarm (sleepTimer s) <=? us); cbn; [reflexivity | exact H].
Qed.

(** C6.  When [setup] returns, the alarm of the sleep timer is 10 s if the
    boot check read below the Low threshold (Low, or Critical with the
    calibration button held) and 60 s otherwise.  Nothing that happens
    afterwards changes the alarm; a key press sets the counter back to 0, so
    that the processor stops once the chosen span has elapsed from the
    press. *)
Theorem inactivity_span_chosen_at_boot
    (rtc_bootCount rtc_backlightBrightness : Z) (b : boot_inputs) :
  let s0 := setup b (startup rtc_bootCount rtc_backlightBrightness) in
  let span := if bootReading b <? 3680 then 10 * 1000000 else 60 * 1000000 in
  halted s0 = false ->
  talarm (sleepTimer s0) = span /\
  talarm_enabled (sleepTimer s0) = true /\
  forall events : list event,
    let s := run s0 events in
    talarm (sleepTimer s) = span /\
    forall (now which : Z),
      halted s = false ->
      let s' := step s (KeyDown now which) in
      tcounter (sleepTimer s') = 0 /\
      talarm (sleepTimer s') = span /\
      forall us : Z, halted (step s' (Elapse us)) = (span <=? us).
Proof.
  intros s0 span H0.
  destruct (setup_effect rtc_bootCount rtc_backlightBrightness b) as (_ & E).
  destruct (E H0) as (_ & T & _). fold s0 in T.
  assert (A0 : talarm (sleepTimer s0) = span) by (rewrite T; reflexivity).
  assert (E0 : talarm_enabled (sleepTimer s0) = true) by (rewrite T; reflexivity).
  split; [exact A0|]. split; [exact E0|].
  intros events s.
  destruct (run_alarm events s0) as (A1 & E1). fold s in A1, E1.
  rewrite A0 in A1. rewrite E0 in E1.
  split; [exact A1|].
  intros now which H s'.
  assert (S' : s' = keyDown now which s).
  { subst s'. unfold step. rewrite H. reflexivity. }
  assert (T' : sleepTimer s' = {| tcounter := 0; talarm := span; talarm_enabled := true |}).
  { rewrite S', keyDown_sleepTimer, A1, E1. reflexivity. }
  assert (H' : halted s' = false).
  { rewrite S'. destruct (keyDown_frame now which s) as (_ & _ & _ & _ & -> & _). exact H. }
  split; [rewrite T'; reflexivity|]. split; [rewrite T'; reflexivity|].
  intros us. unfold step. rewrite H'.
  rewrite timerElapse_halts; rewrite ?T'; try reflexivity. exact H'.
Qed.

Lemma inactivity_span_chosen_at_boot_witness :
  let s0 := setup example_boot (startup 0 51) in
  let span := if bootReading example_boot <? 3680 then 10 * 1000000 else 60 * 1000000 in
  talarm (sleepTimer s0) = span /\
  talarm_enabled (sleepTimer s0) = true /\
  forall events : list event,
    let s := run s0 events in
    talarm (sleepTimer s) = span /\
    forall (now which : Z),
      halted s = false ->
      let s' := step s (KeyDown now which) in
      tcounter (sleepTimer s') = 0 /\
      talarm (sleepTimer s') = span /\
      forall us : Z, halted (step s' (Elapse us)) = (span <=? us).
Proof.
  refine (inactivity_span_chosen_at_boot 0 51 example_boot _).
  vm_compute. reflexivity.
Defined.

(** C7, as the code has it.  [setup] makes exactly one battery check.  A
    pass of [loop] makes none: it leaves the low-battery flag, the alarm of
    the sleep timer and the running processor as they are, whatever the sense
    line would read. *)
Theorem battery_checked_once_at_boot :
  (forall (rtc_bootCount rtc_backlightBrightness : Z) (b : boot_inputs),
     batteryChecks (out (setup b (startup rtc_bootCount rtc_backlightBrightness))) = 1%nat) /\
  (forall (i : loop_inputs) (s : state),
     batteryChecks (out (loop i s)) = batteryChecks (out s) /\
     lowBattery (loop i s) = lowBattery s /\
     talarm (sleepTimer (loop i s)) = talarm (sleepTimer s) /\
     halted (loop i s) = halted s).
Proof.
  split.
  - intros c l b. apply (setup_effect c l b).
  - intros i s. destruct (loop_same_power i s) as (A & _ & W & H & B).
    repeat split; assumption.
Qed.

(** C7 as claimed fails.  After boot at 3912 the sense line drops to 3012,
    below the critical level; a check would stop the processor, but a pass
    of [loop] makes no check: all it writes is the haptic pin, and the device
    runs on with the low-battery flag clear. *)
Lemma loop_makes_no_battery_check :
  let i := {| scanned := []; loop_millis := 5000; loop_tx_ok := true;
              loop_btnIsDown := false;
              loop_vbat := {| analogRead := fun _ => 3000 |} |} in
  filteredReading (loop_vbat i) booted = 3012 /\
  halted (checkBattery 5000 false (loop_vbat i) booted) = true /\
  batteryChecks (out (loop i booted)) = batteryChecks (out booted) /\
  out (loop i booted) = out booted ++ [HapticWrite false] /\
  lowBattery (loop i booted) = false /\
  halted (loop i booted) = false.
Proof. vm_compute. repeat split. Qed.

(** * Further properties *)

Lemma motor_app (l1 l2 : list output) : motor (l1 ++ l2) = motor l1 ++ motor l2.
Proof.
  induction l1 as [|o l1 IH]; cbn; [reflexivity|].
  destruct o; cbn; rewrite ?IH; reflexivity.
Qed.

Lemma eepromWrites_app (l1 l2 : list output) :
  eepromWrites (l1 ++ l2) = eepromWrites l1 ++ eepromWrites l2.
Proof.
  induction l1 as [|o l1 IH]; cbn; [reflexivity|].
  destruct o; cbn; rewrite ?IH; reflexivity.
Qed.

(** ** Backlight *)

(** X1.  [setBacklight] writes one duty and nothing else; the duty is 32
    times the value, the value capped at 255, so it never exceeds 8160 and
    stays within the 13 bits of the timer. *)
Theorem setBacklight_duty (value : Z) (s : state) :
  let s' := setBacklight value s in
  let duty := 32 * Z.min (uint32 value) 255 in
  out s' = out s ++ [LedcWrite duty] /\
  0 <= duty <= 8160 /\
  (0 <= value <= 255 -> duty = 32 * value) /\
  (255 <= value < 2 ^ 32 -> duty = 8160).
Proof.
  intros s' duty.
  assert (R : 0 <= uint32 value < 2 ^ 32).
  { unfold uint32. apply Z.mod_pos_bound. lia. }
  assert (D : 0 <= duty <= 8160) by (subst duty; lia).
  repeat split; try lia.
  - subst s' duty. unfold setBacklight, emit. cbn [out set_out].
    change (8191 / BACKLIGHT_MAX_VAL) with 32. change BACKLIGHT_MAX_VAL with 255.
    rewrite uint32_small; [reflexivity | lia].
  - intros H. subst duty. rewrite uint32_small by lia. lia.
  - intros H. subst duty. rewrite uint32_small by lia. lia.
Qed.

Lemma setBacklight_duty_witness :
  32 * Z.min (uint32 153) 255 = 32 * 153.
Proof.
  refine (proj1 (proj2 (proj2 (setBacklight_duty 153 booted))) _). lia.
Defined.

(** Only [keyUp] can change the brightness, and then by one step. *)
Lemma keyUp_backlightBrightness tx_ok which s :
  backlightBrightness (keyUp tx_ok which s) = backlightBrightness s \/
  backlightBrightness (keyUp tx_ok which s) =
    backlightBrightness (stepBacklightBrightness s).
Proof.
  destruct (Z.eq_dec which FN_KEY) as [F | F];
    [|destruct (key_cmd_eqb (cmd (cmdData s)) f_reset) eqn:R].
  - destruct (keyUp_revert tx_ok which s (or_introl F)) as (_ & _ & _ & Y & N).
    destruct (Z.eq_dec (key (cmdData s)) FN_KEY) as [K | K].
    + right. apply (Y K).
    + left. apply (N K).
  - assert (C : cmd (cmdData s) = f_reset) by (destruct (cmd (cmdData s)); cbn in R; congruence).
    destruct (keyUp_revert tx_ok which s (or_intror C)) as (_ & _ & _ & Y & N).
    destruct (Z.eq_dec (key (cmdData s)) FN_KEY) as [K | K].
    + right. apply (Y K).
    + left. apply (N K).
  - left. apply (keyUp_send tx_ok which s F).
    intros C. rewrite C in R. discriminate.
Qed.

Lemma step_backlightBrightness (s : state) (e : event) :
  match e with KeyUp _ _ => False | _ => True end ->
  backlightBrightness (step s e) = backlightBrightness s.
Proof.
  intros H. unfold step. destruct (halted s); [reflexivity|].
  destruct e; try contradiction.
  - apply keyDown_frame.
  - unfold checkLongKeyPress, sendCmd, backlightDataSaved. by_cases.
  - unfold updateBacklight, setBacklight. by_cases.
  - unfold updateHaptic. by_cases.
  - destruct (calibration_due now btnIsDown s) eqn:EC.
    + rewrite (checkInternalButton_calibrates _ _ vbat _ EC). reflexivity.
    + unfold checkInternalButton.
      destruct (int_btn_is_down s) eqn:E, btnIsDown; cbn; rewrite ?E; cbn;
        unfold calibration_due in EC; rewrite E in EC; cbn in EC;
        rewrite ?EC, ?Z.sub_diag; reflexivity.
  - unfold OnDataSent, sendCmd. by_cases.
  - unfold timerElapse, startDeepSleep, initRtcGpio. by_cases.
Qed.

Lemma stepBacklightBrightness_level (s : state) :
  is_level (backlightBrightness s) ->
  is_level (backlightBrightness (stepBacklightBrightness s)).
Proof.
  intros L. rewrite stepBacklightBrightness_value. unfold is_level in *. cbn in *.
  destruct ((uint32 (backlightBrightness s) <? 255) && negb (lowBattery s)) eqn:C.
  - apply andb_prop in C. destruct C as (C & _). apply Z.ltb_lt in C.
    rewrite uint32_small in C by (change (2 ^ 32) with 4294967296; lia).
    rewrite int32_small by (change (2 ^ 31) with 2147483648; lia). lia.
  - lia.
Qed.

(** X2.  The brightness only ever takes one of the five levels 51, 102,
    153, 204, 255: whatever happens to a device whose brightness is a level,
    it still is one afterwards. *)
Theorem brightness_stays_a_level (s : state) (events : list event) :
  is_level (backlightBrightness s) ->
  is_level (backlightBrightness (run s events)).
Proof.
  revert s. induction events as [|e es IH]; intros s L; [exact L|].
  change (run s (e :: es)) with (run (step s e) es). apply IH.
  destruct e;
    try (rewrite step_backlightBrightness by exact I; exact L).
  unfold step. destruct (halted s); [exact L|].
  destruct (keyUp_backlightBrightness tx_ok which s) as [-> | ->];
    [exact L | apply stepBacklightBrightness_level; exact L].
Qed.

Lemma brightness_stays_a_level_witness :
  is_level (backlightBrightness
              (run booted [KeyDown 10 FN_KEY; KeyUp true FN_KEY; KeyDown 20 3; KeyUp true 3])).
Proof.
  refine (brightness_stays_a_level booted _ _). vm_compute. tauto.
Defined.

(** ** Taps *)

Lemma taps_cons now tx_ok which keys s :
  taps ((now, tx_ok, which) :: keys) s = taps keys (tap now tx_ok which s).
Proof. reflexivity. Qed.

(** One tap of FN with the battery not low: level number i becomes level
    number (i + 1) mod 5, the step is logged once, nothing is sent. *)
Lemma tap_FN_next now tx_ok s i :
  0 <= i < 5 ->
  backlightBrightness s = 51 * (1 + i) ->
  lowBattery s = false ->
  let s' := tap now tx_ok FN_KEY s in
  backlightBrightness s' = 51 * (1 + (i + 1) mod 5) /\
  lowBattery s' = false /\
  brightnessSteps (out s') = S (brightnessSteps (out s)) /\
  sent (out s') = sent (out s).
Proof.
  intros Hi B W. unfold tap. cbv zeta.
  destruct (keyDown_frame now FN_KEY s) as (L1 & W1 & _).
  assert (K1 : key (cmdData (keyDown now FN_KEY s)) = FN_KEY).
  { rewrite keyDown_cmdData. reflexivity. }
  destruct (keyUp_FN_pending tx_ok (keyDown now FN_KEY s) K1) as (O2 & L2 & _).
  destruct (keyUp_same_power tx_ok FN_KEY (keyDown now FN_KEY s)) as (_ & _ & W2 & _).
  pose proof (keyDown_sent now FN_KEY s) as S1.
  pose proof (proj1 (keyDown_printed now FN_KEY s)) as B1.
  generalize dependent (keyDown now FN_KEY s). intros s1 L1 W1 K1.
  generalize (keyUp tx_ok FN_KEY s1). intros s2 O2 L2 W2 S1 B1.
  rewrite L1, W1, B, W in L2. rewrite L1, W1 in O2.
  repeat split.
  - rewrite L2. clear - Hi.
    assert (C : i = 0 \/ i = 1 \/ i = 2 \/ i = 3 \/ i = 4) by lia.
    destruct C as [-> | [-> | [-> | [-> | ->]]]]; reflexivity.
  - congruence.
  - rewrite O2. unfold brightnessSteps in *. rewrite printed_app, B1. cbn. lia.
  - rewrite O2, sent_app, S1. cbn. apply app_nil_r.
Qed.

(** X3.  With the battery not low, tapping FN walks the five levels in a
    cycle: from level number i (counting from 0), n taps of FN lead to level
    number (i + n) mod 5, log n brightness steps and send nothing.  Five
    taps bring the brightness back to where it was. *)
Theorem fn_taps_cycle_brightness (keys : list (Z * bool * Z)) :
  forall (s : state) (i : Z),
    Forall (fun k => snd k = FN_KEY) keys ->
    0 <= i < 5 ->
    backlightBrightness s = 51 * (1 + i) ->
    lowBattery s = false ->
    let s' := taps keys s in
    backlightBrightness s' = 51 * (1 + (i + Z.of_nat (length keys)) mod 5) /\
    brightnessSteps (out s') = (brightnessSteps (out s) + length keys)%nat /\
    sent (out s') = sent (out s).
Proof.
  induction keys as [|[[now tx] which] keys IH]; intros s i F Hi B W.
  - cbn [length]. change (taps [] s) with s. cbv zeta.
    rewrite Z.add_0_r, Z.mod_small, Nat.add_0_r by lia. repeat split. exact B.
  - inversion F as [|? ? Hk F']; subst. cbn [snd] in Hk. subst which.
    cbv zeta. rewrite taps_cons.
    destruct (tap_FN_next now tx s i Hi B W) as (B1 & W1 & P1 & S1).
    generalize dependent (tap now tx FN_KEY s). intros s1 B1 W1 P1 S1.
    destruct (IH s1 ((i + 1) mod 5) F') as (B2 & P2 & S2).
    + apply Z.mod_pos_bound. lia.
    + exact B1.
    + exact W1.
    + repeat split.
      * rewrite B2. cbn [length]. rewrite Nat2Z.inj_succ, Zplus_mod_idemp_l.
        f_equal. f_equal. f_equal. lia.
      * rewrite P2, P1. cbn [length]. lia.
      * rewrite S2. exact S1.
Qed.

Lemma fn_taps_cycle_brightness_witness :
  let s' := taps [(10, true, FN_KEY); (20, true, FN_KEY); (30, true, FN_KEY);
                  (40, true, FN_KEY); (50, true, FN_KEY)] booted in
  backlightBrightness s' = 51 * (1 + (0 + 5) mod 5) /\
  brightnessSteps (out s') = (brightnessSteps (out booted) + 5)%nat /\
  sent (out s') = sent (out booted).
Proof.
  refine (fn_taps_cycle_brightness _ booted 0 _ _ _ _).
  - repeat constructor.
  - lia.
  - vm_compute. reflexivity.
  - vm_compute. reflexivity.
Defined.




(** ** Flash patterns *)

Lemma uint16_small (z : Z) : 0 <= z < 65536 -> uint16 z = z.
Proof. intros H. unfold uint16. apply Z.mod_small. change (2 ^ 16) with 65536. lia. Qed.

Lemma even_of_nat (k : nat) : (Z.of_nat k mod 2 =? 0) = Nat.even k.
Proof.
  rewrite <- Zeven_mod. induction k as [|k IH]; [reflexivity|].
  rewrite Nat2Z.inj_succ, Z.even_succ, Nat.even_succ, <- Z.negb_even, <- Nat.negb_even, IH.
  reflexivity.
Qed.

Lemma playback_cons now times s :
  playback (now :: times) s = playback times (updateBacklight now s).
Proof. reflexivity. Qed.

(** A poll while a pattern is playing and its duration has passed: one
    write, the brightness at even counts and 0 at odd ones. *)
Lemma updateBacklight_toggles now s (k : nat) :
  backlightPatCnt s = Z.of_nat k ->
  Z.of_nat k < backlightPatTimes s < 256 ->
  0 <= backlightMilOld s + backlightPatDurMs s < 2 ^ 32 ->
  backlightMilOld s + backlightPatDurMs s < now ->
  let s' := updateBacklight now s in
  out s' = out s ++ [LedcWrite (if Nat.even k
                                then 32 * Z.min (uint32 (backlightBrightness s)) 255
                                else 0)] /\
  backlightPatCnt s' = Z.of_nat (S k) /\
  backlightMilOld s' = now /\
  backlightPatDurMs s' = backlightPatDurMs s /\
  backlightPatTimes s' = backlightPatTimes s /\
  backlightBrightness s' = backlightBrightness s.
Proof.
  intros C N R T.
  assert (D : forall v, uint32 (8191 / 255 * Z.min (uint32 v) 255) = 32 * Z.min (uint32 v) 255).
  { intros v. change (8191 / 255) with 32.
    assert (0 <= uint32 v) by (unfold uint32; apply Z.mod_pos_bound; lia).
    apply uint32_small. lia. }
  unfold updateBacklight, setBacklight. change BACKLIGHT_MAX_VAL with 255.
  rewrite uint32_small by exact R.
  destruct (Z.ltb_spec (backlightPatCnt s) (backlightPatTimes s)) as [_ | F]; [|lia].
  destruct (Z.ltb_spec (backlightMilOld s + backlightPatDurMs s) now) as [_ | F]; [|lia].
  cbv zeta. cbn -[Z.mul Z.of_nat Z.min Z.add Z.modulo Z.div].
  rewrite C, even_of_nat, !D.
  destruct (Nat.even k); cbn -[Z.mul Z.of_nat Z.min Z.add Z.modulo Z.div];
    rewrite C, uint8_small, Nat2Z.inj_succ by lia; repeat split.
Qed.

(** A poll once the pattern has played out does nothing. *)
Lemma updateBacklight_done now s :
  backlightPatTimes s <= backlightPatCnt s -> updateBacklight now s = s.
Proof.
  intros H. unfold updateBacklight.
  destruct (Z.ltb_spec (backlightPatCnt s) (backlightPatTimes s)); [lia | reflexivity].
Qed.

Lemma playback_done times :
  forall s, backlightPatTimes s <= backlightPatCnt s -> playback times s = s.
Proof.
  induction times as [|t times IH]; intros s H; [reflexivity|].
  rewrite playback_cons, updateBacklight_done by exact H. apply IH. exact H.
Qed.

Lemma playback_blink (times : list Z) :
  forall (s : state) (k : nat),
    backlightPatCnt s = Z.of_nat k ->
    0 <= backlightPatTimes s < 256 ->
    0 <= backlightPatDurMs s ->
    0 <= backlightMilOld s ->
    spaced (backlightPatDurMs s) (backlightMilOld s) times ->
    let m := Nat.min (length times) (Z.to_nat (backlightPatTimes s) - k) in
    let s' := playback times s in
    out s' = out s ++ map LedcWrite
                        (blink (32 * Z.min (uint32 (backlightBrightness s)) 255) k m) /\
    backlightPatCnt s' = Z.of_nat (k + m).
Proof.
  induction times as [|t times IH]; intros s k C N D P SP.
  - cbn [length Nat.min blink map]. change (playback [] s) with s. cbv zeta.
    rewrite app_nil_r, Nat.add_0_r. split; [reflexivity | exact C].
  - destruct (Z_lt_le_dec (Z.of_nat k) (backlightPatTimes s)) as [L | G].
    + cbn [spaced] in SP. destruct SP as (T1 & T2 & SP).
      destruct (updateBacklight_toggles t s k C) as (O1 & C1 & M1 & D1 & N1 & B1);
        [lia | lia | lia |].
      rewrite playback_cons.
      generalize dependent (updateBacklight t s). intros s1 O1 C1 M1 D1 N1 B1.
      destruct (IH s1 (S k) C1) as (O2 & C2).
      * rewrite N1. exact N.
      * rewrite D1. exact D.
      * rewrite M1. lia.
      * rewrite D1, M1. exact SP.
      * cbv zeta. rewrite N1, B1 in O2. rewrite N1 in C2.
        replace (Nat.min (length (t :: times)) (Z.to_nat (backlightPatTimes s) - k))
          with (S (Nat.min (length times) (Z.to_nat (backlightPatTimes s) - S k)))
          by (cbn [length]; lia).
        cbn [blink map]. split.
        -- rewrite O2, O1, <- app_assoc. reflexivity.
        -- rewrite C2. f_equal. lia.
    + cbv zeta. rewrite playback_done by lia.
      replace (Z.to_nat (backlightPatTimes s) - k)%nat with 0%nat by lia.
      rewrite Nat.min_0_r. cbn [blink map]. rewrite app_nil_r, Nat.add_0_r.
      split; [reflexivity | exact C].
Qed.

Lemma backlightSetPattern_playback (d n : Z) (times : list Z) (s : state) :
  0 <= d < 65536 -> 0 <= n < 256 ->
  spaced d 0 times ->
  let s' := playback times (backlightSetPattern d n s) in
  let m := Nat.min (length times) (Z.to_nat n) in
  out s' = out s ++ map LedcWrite
                      (blink (32 * Z.min (uint32 (backlightBrightness s)) 255) 0 m) /\
  backlightPatCnt s' = Z.of_nat m.
Proof.
  intros D N SP.
  pose proof (playback_blink times (backlightSetPattern d n s) 0) as H.
  unfold backlightSetPattern in H |- *.
  rewrite (uint16_small d), (uint8_small n) in H |- * by lia.
  cbn -[Z.mul Z.min] in H. rewrite Nat.sub_0_r in H.
  apply H; try lia; try reflexivity. exact SP.
Qed.

(** X5.  A pattern of [n] toggles of [d] ms, played back by polls that
    come more than [d] ms apart: every poll toggles the backlight, starting
    with the brightness in force, until [n] toggles are done; later polls
    write nothing.  Nothing else is written. *)
Theorem pattern_playback (d n : Z) (times : list Z) (s : state) :
  0 <= d < 65536 -> 0 <= n < 256 ->
  spaced d 0 times ->
  let s' := playback times (backlightSetPattern d n s) in
  let m := Nat.min (length times) (Z.to_nat n) in
  out s' = out s ++ map LedcWrite
                      (blink (32 * Z.min (uint32 (backlightBrightness s)) 255) 0 m) /\
  backlightPatCnt s' = Z.of_nat m.
Proof. apply backlightSetPattern_playback. Qed.

Lemma pattern_playback_witness :
  let s' := playback [150; 300; 450; 600] (backlightSetPattern 100 3 booted) in
  out s' = out booted ++ map LedcWrite
                           (blink (32 * Z.min (uint32 (backlightBrightness booted)) 255) 0 3) /\
  backlightPatCnt s' = 3.
Proof.
  refine (pattern_playback 100 3 [150; 300; 450; 600] booted _ _ _).
  - lia.
  - lia.
  - cbn. lia.
Defined.



(** ** Haptic motor *)

Lemma hapticPolls_motor (times : list Z) :
  forall s : state,
    out (hapticPolls times s) =
      out s ++ map (fun _ => HapticWrite false)
                   (filter (fun t => hapticStopMils s <=? t) times) /\
    hapticStopMils (hapticPolls times s) = hapticStopMils s.
Proof.
  induction times as [|t times IH]; intros s.
  - cbn. rewrite app_nil_r. split; reflexivity.
  - change (hapticPolls (t :: times) s) with (hapticPolls times (updateHaptic t s)).
    destruct (IH (updateHaptic t s)) as (O & H). rewrite O, H. clear O H IH.
    unfold updateHaptic. cbn [filter].
    destruct (hapticStopMils s <=? t); cbn; rewrite <- ?app_assoc; split; reflexivity.
Qed.

(** X7.  The haptic pulse lasts 200 ms.  [hapticVibrate] at [now] drives
    the motor pin high; polls of [updateHaptic] before [now + 200] write
    nothing, and every poll from [now + 200] on drives the pin low (again and
    again, not only the first one). *)
Theorem haptic_pulse_lasts_200_ms (now : Z) (times : list Z) (s : state) :
  0 <= now -> now + 200 < 2 ^ 32 ->
  let s' := hapticPolls times (hapticVibrate now s) in
  out s' = out s ++ HapticWrite true
                 :: map (fun _ => HapticWrite false)
                        (filter (fun t => now + 200 <=? t) times) /\
  motor (out s') = motor (out s) ++ true
                     :: map (fun _ => false) (filter (fun t => now + 200 <=? t) times).
Proof.
  intros H0 H1 s'.
  assert (O : out s' = out s ++ HapticWrite true
                         :: map (fun _ => HapticWrite false)
                                (filter (fun t => now + 200 <=? t) times)).
  { subst s'. destruct (hapticPolls_motor times (hapticVibrate now s)) as (O & _).
    rewrite O. unfold hapticVibrate. cbn -[Z.add]. change HAPTIC_DUR_MS with 200.
    rewrite uint32_small by lia. rewrite <- app_assoc. reflexivity. }
  split; [exact O|].
  rewrite O, motor_app. clear O. cbn. f_equal. f_equal.
  induction (filter (fun t => now + 200 <=? t) times) as [|x l IH]; cbn; [|rewrite IH]; reflexivity.
Qed.

Lemma haptic_pulse_lasts_200_ms_witness :
  let s' := hapticPolls [1010; 1100; 1199; 1200; 1250] (hapticVibrate 1000 booted) in
  motor (out s') = motor (out booted) ++ [true; false; false].
Proof.
  refine (proj2 (haptic_pulse_lasts_200_ms 1000 [1010; 1100; 1199; 1200; 1250] booted _ _)).
  - lia.
  - lia.
Defined.

(** X8.  Within 200 ms of the wrap of the 32-bit millisecond clock the
    stop time wraps to a small number, and the pulse is cut short: the next
    poll, however early, already drives the pin low. *)
Theorem haptic_pulse_cut_short_at_clock_wrap (now t : Z) (s : state) :
  2 ^ 32 - 200 <= now < 2 ^ 32 ->
  now <= t < 2 ^ 32 ->
  let s' := updateHaptic t (hapticVibrate now s) in
  hapticStopMils s' = now + 200 - 2 ^ 32 /\
  out s' = out s ++ [HapticWrite true; HapticWrite false].
Proof.
  intros H0 H1.
  assert (W : uint32 (now + 200) = now + 200 - 2 ^ 32).
  { unfold uint32. symmetry. apply (Z.mod_unique_pos _ _ 1); lia. }
  unfold updateHaptic, hapticVibrate. cbn -[Z.add Z.sub Z.pow]. change HAPTIC_DUR_MS with 200.
  rewrite W.
  destruct (Z.leb_spec (now + 200 - 2 ^ 32) t) as [_ | F]; [|lia].
  cbn -[Z.add Z.sub Z.pow]. rewrite <- app_assoc. split; reflexivity.
Qed.

Lemma haptic_pulse_cut_short_at_clock_wrap_witness :
  let s' := updateHaptic 4294967197 (hapticVibrate 4294967196 booted) in
  hapticStopMils s' = 4294967196 + 200 - 2 ^ 32 /\
  out s' = out booted ++ [HapticWrite true; HapticWrite false].
Proof.
  refine (haptic_pulse_cut_short_at_clock_wrap 4294967196 4294967197 booted _ _).
  - lia.
  - lia.
Defined.

(** ** Calibration *)

Lemma sumSamples_range (vbat : sense_line) : 0 <= sumSamples vbat <= 30 * 65535.
Proof.
  destruct vbat as [read]. unfold sumSamples.
  assert (F : forall (l : list nat) (acc : Z),
             0 <= acc -> acc + 65535 * Z.of_nat (length l) < 2 ^ 32 ->
             0 <= fold_left (fun vbatValue i => uint32 (vbatValue + uint16 (read i))) l acc
               <= acc + 65535 * Z.of_nat (length l)).
  { induction l as [|i l IH]; intros acc H0 H1; cbn [fold_left length] in *; [lia|].
    rewrite Nat2Z.inj_succ in *.
    pose proof (uint16_range (read i)) as R.
    rewrite uint32_small by lia.
    specialize (IH (acc + uint16 (read i))). lia. }
  specialize (F (seq 0 samples) 0). rewrite length_seq in F.
  change (Z.of_nat samples) with 30 in F. lia.
Qed.


(** X9.  Calibration stores the offset that makes the average just
    measured read as 3600, keeps the pairing address, writes the record to
    the EEPROM once and starts the "data saved" pattern.  A check made on
    the same line voltage then reads exactly 3600, and any other average is
    shifted by the same offset. *)
Theorem calibration_reads_3600 (vbat vbat' : sense_line) (s : state) :
  let s' := calcSaveAnalogOffset vbat s in
  analogOffset (edata s') = 3600 - sumSamples vbat / 30 /\
  -61935 <= analogOffset (edata s') <= 3600 /\
  broadcastAddress (edata s') = broadcastAddress (edata s) /\
  eepromWrites (out s') = eepromWrites (out s) ++ [edata s'] /\
  pattern s' = dataSavedPattern /\
  filteredReading vbat' s' = uint16 (sumSamples vbat' / 30 + 3600 - sumSamples vbat / 30) /\
  filteredReading vbat s' = 3600.
Proof.
  intros s'.
  pose proof (sumSamples_range vbat) as R.
  pose proof (sumSamples_range vbat') as R'.
  assert (A : 0 <= sumSamples vbat / 30 <= 65535).
  { split; [apply Z.div_pos; lia | apply Z.div_le_upper_bound; lia]. }
  assert (A' : 0 <= sumSamples vbat' / 30 <= 65535).
  { split; [apply Z.div_pos; lia | apply Z.div_le_upper_bound; lia]. }
  assert (E : analogOffset (edata s') = 3600 - sumSamples vbat / 30).
  { subst s'. unfold calcSaveAnalogOffset, EEPROM_put, backlightDataSaved.
    cbn -[Z.sub Z.div]. change (Z.of_nat samples) with 30.
    rewrite !int32_small; [reflexivity | | ];
      change (2 ^ 31) with 2147483648; rewrite ?int32_small;
      change (2 ^ 31) with 2147483648; lia. }
  assert (FR : forall v, filteredReading v s' = uint16 (uint16 (sumSamples v / 30) + analogOffset (edata s'))).
  { intros v. reflexivity. }
  rewrite !FR, E. clear FR.
  rewrite (uint16_small (sumSamples vbat / 30)), (uint16_small (sumSamples vbat' / 30)) by lia.
  replace (sumSamples vbat / 30 + (3600 - sumSamples vbat / 30)) with 3600 by lia.
  replace (sumSamples vbat' / 30 + (3600 - sumSamples vbat / 30))
    with (sumSamples vbat' / 30 + 3600 - sumSamples vbat / 30) by lia.
  change (uint16 3600) with 3600.
  repeat split; try lia.
  subst s'. unfold calcSaveAnalogOffset, EEPROM_put, backlightDataSaved.
  cbn -[Z.sub Z.div]. rewrite !eepromWrites_app. cbn -[Z.sub Z.div].
  rewrite !app_nil_r. reflexivity.
Qed.

(** ** Internal button *)



(** ** The control loop as a sequence of events *)

Lemma step_running (s : state) (e : event) :
  match e with Elapse _ => False | _ => True end ->
  halted (step s e) = halted s.
Proof.
  intros H. unfold step. destruct (halted s) eqn:E; [exact E|].
  rewrite <- E. destruct e; try contradiction.
  - apply keyDown_same_power.
  - apply keyUp_same_power.
  - apply checkLongKeyPress_same_power.
  - apply updateBacklight_same_power.
  - apply updateHaptic_same_power.
  - apply checkInternalButton_same_power.
  - apply OnDataSent_same_power.
Qed.

Lemma scan_run now transitions :
  forall s,
    halted s = false ->
    scan now transitions s =
      run s (map (fun t => match t with
                           | Pressed which => KeyDown now which
                           | Released tx_ok which => KeyUp tx_ok which
                           end) transitions) /\
    halted (scan now transitions s) = false.
Proof.
  induction transitions as [|t ts IH]; intros s H.
  - split; [reflexivity | exact H].
  - cbn [map]. change (run s (?e :: ?es)) with (run (step s e) es).
    change (scan now (t :: ts) s)
      with (scan now ts (match t with
                         | Pressed which => keyDown now which s
                         | Released tx_ok which => keyUp tx_ok which s
                         end)).
    assert (E : step s (match t with
                        | Pressed which => KeyDown now which
                        | Released tx_ok which => KeyUp tx_ok which
                        end) =
                match t with
                | Pressed which => keyDown now which s
                | Released tx_ok which => keyUp tx_ok which s
                end).
    { unfold step. rewrite H. destruct t; reflexivity. }
    rewrite E. apply IH. rewrite <- E, step_running; [exact H | destruct t; exact I].
Qed.

(** X11.  One pass of [loop] on a running device is the scan's key events
    followed by one poll each of the long-press watchdog, the backlight
    pattern, the haptic timer and the internal button, in this order; and no
    pass of [loop] stops the processor. *)
Theorem loop_is_scan_then_four_polls (i : loop_inputs) (s : state) :
  halted s = false ->
  loop i s = run s (loop_events i) /\ halted (loop i s) = false.
Proof.
  intros H. unfold loop, loop_events. rewrite run_app.
  destruct (scan_run (loop_millis i) (scanned i) s H) as (E & H1).
  rewrite <- E. generalize dependent (scan (loop_millis i) (scanned i) s). intros s1 _ H1.
  assert (R : forall s e, halted s = false ->
                match e with Elapse _ => False | _ => True end ->
                halted (step s e) = false).
  { intros s0 e H0 He. rewrite step_running; assumption. }
  cbn [run fold_left].
  pose proof (R s1 (LongPressPoll (loop_millis i) (loop_tx_ok i)) H1 I) as H2.
  assert (E2 : step s1 (LongPressPoll (loop_millis i) (loop_tx_ok i)) =
               checkLongKeyPress (loop_millis i) (loop_tx_ok i) s1)
    by (unfold step; rewrite H1; reflexivity).
  rewrite E2 in *. generalize dependent (checkLongKeyPress (loop_millis i) (loop_tx_ok i) s1).
  intros s2 H2 _.
  pose proof (R s2 (BacklightPoll (loop_millis i)) H2 I) as H3.
  assert (E3 : step s2 (BacklightPoll (loop_millis i)) = updateBacklight (loop_millis i) s2)
    by (unfold step; rewrite H2; reflexivity).
  rewrite E3 in *. generalize dependent (updateBacklight (loop_millis i) s2).
  intros s3 H3 _.
  pose proof (R s3 (HapticPoll (loop_millis i)) H3 I) as H4.
  assert (E4 : step s3 (HapticPoll (loop_millis i)) = updateHaptic (loop_millis i) s3)
    by (unfold step; rewrite H3; reflexivity).
  rewrite E4 in *. generalize dependent (updateHaptic (loop_millis i) s3).
  intros s4 H4 _.
  pose proof (R s4 (ButtonPoll (loop_millis i) (loop_btnIsDown i) (loop_vbat i)) H4 I) as H5.
  assert (E5 : step s4 (ButtonPoll (loop_millis i) (loop_btnIsDown i) (loop_vbat i)) =
               checkInternalButton (loop_millis i) (loop_btnIsDown i) (loop_vbat i) s4)
    by (unfold step; rewrite H4; reflexivity).
  rewrite E5 in *. split; [reflexivity | exact H5].
Qed.

Lemma loop_is_scan_then_four_polls_witness :
  let i := {| scanned := [Pressed 7; Released true 7]; loop_millis := 500;
              loop_tx_ok := true; loop_btnIsDown := false;
              loop_vbat := {| analogRead := fun _ => 3900 |} |} in
  loop i booted = run booted (loop_events i) /\ halted (loop i booted) = false.
Proof.
  refine (loop_is_scan_then_four_polls _ booted _). vm_compute. reflexivity.
Defined.

(** ** Invariants of executions *)

(** X12.  The retry counter never leaves 0..24: whatever happens, a
    counter within the bound stays within it. *)
Theorem retry_counter_stays_in_range (events : list event) :
  forall s : state,
    0 <= txRetryCount s <= MAX_TX_RETRY ->
    0 <= txRetryCount (run s events) <= MAX_TX_RETRY.
Proof.
  unfold MAX_TX_RETRY.
  induction events as [|e es IH]; intros s H; [exact H|].
  change (run s (e :: es)) with (run (step s e) es). apply IH.
  destruct e; try (rewrite step_txRetryCount by exact I; exact H).
  unfold step. destruct (halted s); [exact H|].
  destruct delivered.
  - destruct (OnDataSent_success tx_ok s) as (T & _). rewrite T. exact H.
  - destruct (Z_lt_le_dec (txRetryCount s) 24) as [L | G].
    + destruct (OnDataSent_retry tx_ok s) as (T & _).
      { rewrite uint32_small; unfold MAX_TX_RETRY; lia. }
      rewrite T, int32_small; lia.
    + destruct (OnDataSent_drop tx_ok s) as (T & _).
      { rewrite uint32_small; unfold MAX_TX_RETRY; lia. }
      rewrite T. lia.
Qed.

Lemma retry_counter_stays_in_range_witness :
  0 <= txRetryCount (run booted [KeyDown 10 3; KeyUp true 3; SendStatus true false;
                                 SendStatus true false; SendStatus true true])
    <= MAX_TX_RETRY.
Proof.
  refine (retry_counter_stays_in_range _ booted _). vm_compute. split; discriminate.
Defined.

Lemma uint8_range (z : Z) : 0 <= uint8 z < 256.
Proof. unfold uint8. change (2 ^ 8) with 256. apply Z.mod_pos_bound. lia. Qed.

Ltac grows :=
  repeat rewrite <- app_assoc; cbn [app];
  first [ eexists; split; [reflexivity|]
        | exists []; split; [symmetry; apply app_nil_r|] ];
  repeat split; try assumption; try apply uint8_range;
  repeat (constructor; cbn [to_peer]; try tauto).

Lemma checkInternalButton_cmdData now btnIsDown vbat s :
  cmdData (checkInternalButton now btnIsDown vbat s) = cmdData s.
Proof.
  destruct (calibration_due now btnIsDown s) eqn:EC.
  - rewrite (checkInternalButton_calibrates _ _ vbat _ EC). reflexivity.
  - unfold calibration_due, checkInternalButton in *.
    destruct (int_btn_is_down s) eqn:E, btnIsDown; cbn; rewrite ?E; cbn; cbn in EC;
      rewrite ?EC, ?Z.sub_diag; cbn; rewrite ?E; reflexivity.
Qed.

Lemma step_to_peer (s : state) (e : event) :
  0 <= key (cmdData s) < 256 ->
  (exists l, out (step s e) = out s ++ l /\
             Forall (to_peer (broadcastAddress (edata s))) l) /\
  broadcastAddress (edata (step s e)) = broadcastAddress (edata s) /\
  0 <= key (cmdData (step s e)) < 256.
Proof.
  intros K. unfold step. destruct (halted s).
  { split; [exists []; split; [symmetry; apply app_nil_r | constructor] | tauto]. }
  destruct e.
  - unfold keyDown, hapticVibrate. case_ifs; split; try grows; split; try reflexivity;
      apply uint8_range.
  - unfold keyUp, stepBacklightBrightness, setBacklight, backlightLowBattery, sendCmd,
      backlightLearnModeSent.
    case_ifs; split; try grows; split; try reflexivity; assumption.
  - unfold checkLongKeyPress, sendCmd, backlightDataSaved.
    case_ifs; split; try grows; split; try reflexivity; assumption.
  - unfold updateBacklight, setBacklight.
    case_ifs; split; try grows; split; try reflexivity; assumption.
  - unfold updateHaptic.
    case_ifs; split; try grows; split; try reflexivity; assumption.
  - rewrite checkInternalButton_cmdData.
    destruct (calibration_due now btnIsDown s) eqn:EC.
    + rewrite (checkInternalButton_calibrates _ _ vbat _ EC).
      unfold calcSaveAnalogOffset, EEPROM_put, backlightDataSaved.
      cbn -[Z.sub Z.div]. split; [grows | tauto].
    + destruct (checkInternalButton_quiet now btnIsDown vbat s EC)
        as (_ & O & _ & _ & _ & E & _).
      rewrite O, E. split; [grows | tauto].
  - unfold OnDataSent, sendCmd.
    case_ifs; split; try grows; split; try reflexivity; assumption.
  - unfold timerElapse, startDeepSleep, initRtcGpio.
    case_ifs; split; try grows; split; try reflexivity; assumption.
Qed.

(** X13.  Once set up, the device transmits to the stored pairing address
    only, every payload carries a key that fits a byte, no peer is
    registered again, and nothing that was written is taken back: the output
    only grows. *)
Theorem transmissions_go_to_the_paired_address (events : list event) :
  forall s : state,
    0 <= key (cmdData s) < 256 ->
    exists l : list output,
      out (run s events) = out s ++ l /\
      Forall (to_peer (broadcastAddress (edata s))) l.
Proof.
  induction events as [|e es IH]; intros s K.
  - exists []. split; [symmetry; apply app_nil_r | constructor].
  - change (run s (e :: es)) with (run (step s e) es).
    destruct (step_to_peer s e K) as ((l1 & O1 & F1) & A1 & K1).
    destruct (IH (step s e) K1) as (l2 & O2 & F2).
    exists (l1 ++ l2). split.
    + rewrite O2, O1, app_assoc. reflexivity.
    + apply Forall_app. split; [exact F1|]. rewrite A1 in F2. exact F2.
Qed.

Lemma transmissions_go_to_the_paired_address_witness :
  exists l : list output,
    out (run booted [KeyDown 10 3; KeyUp true 3; SendStatus true false]) = out booted ++ l /\
    Forall (to_peer (broadcastAddress (edata booted))) l.
Proof.
  refine (transmissions_go_to_the_paired_address _ booted _). vm_compute.
  split; [discriminate | reflexivity].
Defined.

(** ** Boot, in full *)

Lemma silent_refl (s : state) : silent s s.
Proof.
  exists []. split; [|repeat split]. destruct s. cbn. rewrite app_nil_r. reflexivity.
Qed.

Lemma silent_trans (s1 s2 s3 : state) : silent s1 s2 -> silent s2 s3 -> silent s1 s3.
Proof.
  intros (l1 & -> & S1 & P1 & E1) (l2 & -> & S2 & P2 & E2). exists (l1 ++ l2). split.
  - cbn. rewrite app_assoc. reflexivity.
  - rewrite sent_app, pwm_app, eepromWrites_app, S1, S2, P1, P2, E1, E2. repeat split.
Qed.

Lemma silent_emit (o : output) (s : state) :
  sent [o] = [] -> pwm [o] = [] -> eepromWrites [o] = [] -> silent s (emit o s).
Proof. intros S P E. exists [o]. repeat split; assumption. Qed.

Ltac silence :=
  repeat first
    [ apply silent_refl
    | eapply silent_trans; [|apply silent_emit; reflexivity] ].

Lemma print_wakeup_trigger_silent cause s : silent s (print_wakeup_trigger cause s).
Proof. destruct cause; unfold print_wakeup_trigger, print, printValue, printNum; silence. Qed.

Lemma initEsp32Now_silent b s : silent s (initEsp32Now b s).
Proof.
  unfold initEsp32Now, setBrodcastAddr.
  change (memcmp_eq [255; 255; 255; 255; 255; 255] IR_BLASTER_MAC) with true.
  cbn [negb]. cbv zeta.
  destruct (esp_now_init_ok b), (esp_now_add_peer_ok b); cbn [negb];
    unfold print, printValue; silence.
Qed.

Lemma printAddressBytes_silent (bytes : list Z) :
  forall s, silent s (printAddressBytes bytes s).
Proof.
  induction bytes as [|b [|b' rest] IH]; intros s.
  - apply silent_refl.
  - cbn. silence.
  - change (silent s (printAddressBytes (b' :: rest) (print ":" (emit (SerialHex b) s)))).
    eapply silent_trans; [|apply IH]. unfold print. silence.
Qed.

Lemma silent_fields (s s' : state) :
  silent s s' ->
  (sent (out s') = sent (out s) /\ pwm (out s') = pwm (out s) /\
   eepromWrites (out s') = eepromWrites (out s)) /\
  (edata s' = edata s /\ lowBattery s' = lowBattery s /\ halted s' = halted s /\
   int_btn_is_down s' = int_btn_is_down s /\ bootCount s' = bootCount s /\
   backlightBrightness s' = backlightBrightness s /\ cmdData s' = cmdData s).
Proof.
  intros (l & -> & S & P & E). cbn.
  rewrite sent_app, pwm_app, eepromWrites_app, S, P, E, !app_nil_r. repeat split.
Qed.

(** The battery check that [setup] makes: the button was not down before,
    so no calibration can run inside it. *)
Lemma checkBattery_first now btnIsDown vbat s :
  int_btn_is_down s = false ->
  halted s = false ->
  let s' := checkBattery now btnIsDown vbat s in
  halted s' = (filteredReading vbat s <? VBAT_CRITICAL) && negb btnIsDown /\
  (sent (out s') = sent (out s) /\ pwm (out s') = pwm (out s) /\
   eepromWrites (out s') = eepromWrites (out s)) /\
  (edata s' = edata s /\ bootCount s' = bootCount s /\
   backlightBrightness s' = backlightBrightness s /\ cmdData s' = cmdData s) /\
  (halted s' = true -> exists l, out s' = l ++ [DeepSleepStart]).
Proof.
  intros D H. unfold checkBattery. cbv zeta.
  generalize (filteredReading vbat s). intros v.
  destruct (v <? VBAT_CRITICAL); [|destruct (v <? VBAT_LOW)].
  - set (s1 := print "Battery CRITICAL!" _).
    assert (F1 : int_btn_is_down s1 = false /\ halted s1 = false /\
                 sent (out s1) = sent (out s) /\ pwm (out s1) = pwm (out s) /\
                 eepromWrites (out s1) = eepromWrites (out s) /\
                 edata s1 = edata s /\ bootCount s1 = bootCount s /\
                 backlightBrightness s1 = backlightBrightness s /\ cmdData s1 = cmdData s).
    { subst s1. cbn. rewrite !sent_app, !pwm_app, !eepromWrites_app. cbn.
      rewrite !app_nil_r. repeat split; assumption. }
    clearbody s1. destruct F1 as (D1 & H1 & S1 & P1 & E1 & X1 & B1 & L1 & C1).
    rewrite <- S1, <- P1, <- E1, <- X1, <- B1, <- L1, <- C1. clear S1 P1 E1 X1 B1 L1 C1.
    unfold checkInternalButton. rewrite D1.
    destruct btnIsDown; cbn; rewrite ?Z.sub_diag, ?D1;
      change (DO_CALIBRATION_HOLD_MS <? uint32 0) with false; cbn; rewrite ?D1; cbn.
    + rewrite !sent_app, !pwm_app, !eepromWrites_app. cbn. rewrite !app_nil_r.
      repeat split; try assumption; try congruence; try (intros F; congruence).
    + rewrite !sent_app, !pwm_app, !eepromWrites_app. cbn. rewrite !app_nil_r.
      repeat split; try assumption. intros _. eexists. reflexivity.
  - case_ifs; rewrite ?sent_app, ?pwm_app, ?eepromWrites_app; cbn;
      rewrite ?app_nil_r; repeat split; try assumption; try congruence; try (intros F; congruence).
  - case_ifs; rewrite ?sent_app, ?pwm_app, ?eepromWrites_app; cbn;
      rewrite ?app_nil_r; repeat split; try assumption; try congruence; try (intros F; congruence).
Qed.

(** What [setup] leaves behind, whichever way the battery check goes. *)
Lemma setup_outcome (rtc_bootCount rtc_backlightBrightness : Z) (b : boot_inputs) :
  let s0 := setup b (startup rtc_bootCount rtc_backlightBrightness) in
  halted s0 = (bootReading b <? VBAT_CRITICAL) && negb (boot_btnIsDown b) /\
  sent (out s0) = [] /\
  eepromWrites (out s0) = [] /\
  edata s0 = stored b /\
  backlightBrightness s0 = rtc_backlightBrightness /\
  (halted s0 = true ->
     bootCount s0 = rtc_bootCount /\ pwm (out s0) = [] /\
     exists l, out s0 = l ++ [DeepSleepStart]) /\
  (halted s0 = false ->
     bootCount s0 = uint32 (rtc_bootCount + 1) /\
     pwm (out s0) = [32 * Z.min (uint32 rtc_backlightBrightness) 255] /\
     cmdData s0 = {| key := 0; cmd := send_ir |} /\
     exists l, out s0 = l ++ [RtcGpioHold 14 false;
                              LedcWrite (32 * Z.min (uint32 rtc_backlightBrightness) 255)]).
Proof.
  unfold setup. cbv zeta.
  set (s5 := printNum _ (print "Analog Offset: " _)).
  assert (O5 : silent (set_edata (stored b)
                         (startup rtc_bootCount rtc_backlightBrightness)) s5).
  { subst s5. unfold print, printNum.
    eapply silent_trans; [|apply silent_emit; reflexivity].
    eapply silent_trans; [|apply silent_emit; reflexivity].
    eapply silent_trans; [|apply silent_emit; reflexivity].
    eapply silent_trans; [|apply print_wakeup_trigger_silent].
    apply initEsp32Now_silent. }
  clearbody s5.
  apply silent_fields in O5. cbn in O5.
  destruct O5 as ((S5 & P5 & E5) & X5 & _ & H5 & D5 & B5 & L5 & C5).
  destruct (checkBattery_first (boot_millis b) (boot_btnIsDown b) (boot_vbat b) s5 D5 H5)
    as (H6 & (S6 & P6 & E6) & (X6 & B6 & L6 & C6) & Z6).
  rewrite (filteredReading_boot b s5 X5) in H6.
  set (s6 := checkBattery _ _ _ s5) in *. clearbody s6.
  rewrite S5 in S6. rewrite P5 in P6. rewrite E5 in E6. rewrite X5 in X6.
  rewrite B5 in B6. rewrite L5 in L6. rewrite C5 in C6.
  clear S5 P5 E5 X5 H5 D5 B5 L5 C5 s5.
  destruct (halted s6) eqn:H.
  - repeat split; try assumption; try congruence; try (apply Z6; reflexivity).
  - clear Z6.
    pose proof (printAddressBytes_silent
                  (broadcastAddress (edata s6))
                  (print "Paired to MAC: "
                     (printNum (uint32 (bootCount s6 + 1))
                        (print "Boot number: "
                           (set_bootCount (uint32 (bootCount s6 + 1)) s6))))) as OA.
    unfold printBrodcastAddress, clearRtcGpioHolds, startSleepTimer, setBacklight.
    cbn -[Z.mul Z.min Z.div].
    set (sA := printAddressBytes _ _) in *. clearbody sA.
    apply silent_fields in OA. cbn -[Z.mul Z.min Z.div] in OA.
    rewrite !sent_app, !pwm_app, !eepromWrites_app in OA.
    cbn -[Z.mul Z.min Z.div] in OA. rewrite !app_nil_r in OA.
    destruct OA as ((SA & PA & EA) & XA & _ & HA & _ & BA & LA & CA).
    rewrite !sent_app, !pwm_app, !eepromWrites_app. cbn -[Z.mul Z.min Z.div].
    rewrite !app_nil_r, SA, PA, EA, XA, HA, BA, LA, CA, S6, P6, E6, X6, B6, L6, C6.
    change (8191 / BACKLIGHT_MAX_VAL) with 32. change BACKLIGHT_MAX_VAL with 255.
    assert (0 <= uint32 rtc_backlightBrightness)
      by (unfold uint32; apply Z.mod_pos_bound; lia).
    rewrite (uint32_small (32 * Z.min (uint32 rtc_backlightBrightness) 255)) by lia.
    repeat split; try assumption; try congruence.
    exists (out sA). rewrite <- app_assoc. reflexivity.
Qed.

(** X14.  Boot.  [setup] transmits nothing and, with the pairing constant
    as shipped (all 0xFF), never writes the EEPROM: the stored record is used
    as it is.  The device goes straight back to sleep exactly when the
    reading is critical and the internal button is not held; such a boot is
    not counted and the backlight is not lit.  Otherwise the boot is counted
    and the backlight is lit once, at the brightness kept from before the
    sleep, right after the hold on the matrix column is released, with the
    pending command reset to [send_ir]. *)
Theorem boot_outcome (rtc_bootCount rtc_backlightBrightness : Z) (b : boot_inputs) :
  let s0 := setup b (startup rtc_bootCount rtc_backlightBrightness) in
  halted s0 = (bootReading b <? VBAT_CRITICAL) && negb (boot_btnIsDown b) /\
  sent (out s0) = [] /\
  eepromWrites (out s0) = [] /\
  edata s0 = stored b /\
  backlightBrightness s0 = rtc_backlightBrightness /\
  (halted s0 = true ->
     bootCount s0 = rtc_bootCount /\ pwm (out s0) = [] /\
     exists l, out s0 = l ++ [DeepSleepStart]) /\
  (halted s0 = false ->
     bootCount s0 = uint32 (rtc_bootCount + 1) /\
     pwm (out s0) = [32 * Z.min (uint32 rtc_backlightBrightness) 255] /\
     cmdData s0 = {| key := 0; cmd := send_ir |} /\
     exists l, out s0 = l ++ [RtcGpioHold 14 false;
                              LedcWrite (32 * Z.min (uint32 rtc_backlightBrightness) 255)]).
Proof. apply setup_outcome. Qed.

(** ** Key interpreter, further sequences *)

(** A poll that fires on a pending PWR. *)
Lemma checkLongKeyPress_fires_pending now tx_ok s c :
  cmdData s = {| key := PWR_KEY; cmd := c |} ->
  pwr_key_is_down s = true ->
  FACTORY_RESET_HOLD_MS < uint32 (now - lastPwrKeyDown s) ->
  let s' := checkLongKeyPress now tx_ok s in
  sent (out s') = sent (out s) ++ [{| key := PWR_KEY; cmd := f_reset |}] /\
  cmdData s' = {| key := PWR_KEY; cmd := f_reset |} /\
  brightnessSteps (out s') = brightnessSteps (out s) /\
  backlightBrightness s' = backlightBrightness s /\
  pattern s' = dataSavedPattern.
Proof.
  intros C D HT. apply Z.ltb_lt in HT.
  unfold checkLongKeyPress, sendCmd, backlightDataSaved, pattern.
  rewrite D, HT. cbn. rewrite C. cbn. by_cases; repeat split; rewrite ?C; reflexivity.
Qed.

(** The release of PWR right after its factory reset. *)
Lemma keyUp_after_reset tx_ok s :
  cmdData s = {| key := PWR_KEY; cmd := f_reset |} ->
  let s' := keyUp tx_ok PWR_KEY s in
  sent (out s') = sent (out s) /\
  cmdData s' = {| key := PWR_KEY; cmd := send_ir |} /\
  pwr_key_is_down s' = false /\
  brightnessSteps (out s') = brightnessSteps (out s) /\
  backlightBrightness s' = backlightBrightness s /\
  pattern s' = pattern s.
Proof.
  intros C. unfold keyUp, pattern. cbn. rewrite C. cbn. outputs. repeat split.
  rewrite C. reflexivity.
Qed.

(** X15.  A long press from press to release.  PWR goes down, a poll
    finds more than 8000 ms elapsed and sends the factory reset, PWR goes up:
    the release sends nothing and puts the interpreter back in [send_ir], so
    the whole gesture transmits the one factory reset, steps no brightness
    and leaves the "data saved" pattern playing. *)
Theorem long_press_release_sends_nothing
    (s : state) (t0 now : Z) (tx_ok tx_ok' : bool) :
  FACTORY_RESET_HOLD_MS < uint32 (now - t0) ->
  let s1 := keyDown t0 PWR_KEY s in
  let s2 := checkLongKeyPress now tx_ok s1 in
  let s3 := keyUp tx_ok' PWR_KEY s2 in
  sent (out s2) = sent (out s) ++ [{| key := PWR_KEY; cmd := f_reset |}] /\
  sent (out s3) = sent (out s2) /\
  cmdData s3 = {| key := PWR_KEY; cmd := send_ir |} /\
  pwr_key_is_down s3 = false /\
  brightnessSteps (out s3) = brightnessSteps (out s) /\
  backlightBrightness s3 = backlightBrightness s /\
  pattern s3 = dataSavedPattern.
Proof.
  intros HT. cbv zeta.
  pose proof (keyDown_cmdData t0 PWR_KEY s) as C1.
  pose proof (keyDown_sent t0 PWR_KEY s) as S1.
  pose proof (proj1 (keyDown_printed t0 PWR_KEY s)) as B1.
  pose proof (keyDown_pwr_key_is_down t0 PWR_KEY s) as D1.
  pose proof (keyDown_lastPwrKeyDown t0 PWR_KEY s) as L1.
  destruct (keyDown_frame t0 PWR_KEY s) as (W1 & _).
  generalize dependent (keyDown t0 PWR_KEY s). intros s1 C1 S1 B1 D1 L1 W1.
  change (PWR_KEY =? FN_KEY) with false in C1. change (uint8 PWR_KEY) with PWR_KEY in C1.
  rewrite Z.eqb_refl in D1, L1. rewrite <- L1 in HT.
  destruct (checkLongKeyPress_fires_pending now tx_ok s1 _ C1 D1 HT)
    as (S2 & C2 & B2 & W2 & P2).
  generalize dependent (checkLongKeyPress now tx_ok s1). intros s2 S2 C2 B2 W2 P2.
  destruct (keyUp_after_reset tx_ok' s2 C2) as (S3 & C3 & D3 & B3 & W3 & P3).
  generalize dependent (keyUp tx_ok' PWR_KEY s2). intros s3 S3 C3 D3 B3 W3 P3.
  repeat split; congruence.
Qed.

Lemma long_press_release_sends_nothing_witness :
  let s1 := keyDown 1000 PWR_KEY booted in
  let s2 := checkLongKeyPress 9001 true s1 in
  let s3 := keyUp true PWR_KEY s2 in
  sent (out s3) = sent (out s2) /\
  cmdData s3 = {| key := PWR_KEY; cmd := send_ir |}.
Proof.
  refine (let H := long_press_release_sends_nothing booted 1000 9001 true true _ in
          conj (proj1 (proj2 H)) (proj1 (proj2 (proj2 H)))).
  vm_compute. reflexivity.
Defined.

(** One tap of a key other than FN in learn mode: the key goes out as a
    [learn_ir], the "learn mode sent" pattern starts, and learn mode
    stays. *)
Lemma tap_learn now tx_ok which s :
  0 <= which < 256 -> which <> FN_KEY ->
  cmd (cmdData s) = learn_ir ->
  let s' := tap now tx_ok which s in
  sent (out s') = sent (out s) ++ [{| key := which; cmd := learn_ir |}] /\
  cmdData s' = {| key := which; cmd := learn_ir |} /\
  brightnessSteps (out s') = brightnessSteps (out s) /\
  backlightBrightness s' = backlightBrightness s /\
  pattern s' = learnModePattern.
Proof.
  intros R F C. unfold tap. cbv zeta.
  destruct (keyDown_frame now which s) as (L1 & _).
  assert (C1 : cmdData (keyDown now which s) = {| key := which; cmd := learn_ir |}).
  { rewrite keyDown_cmdData. apply Z.eqb_neq in F. rewrite F, C, uint8_small by lia.
    reflexivity. }
  pose proof (keyDown_sent now which s) as S1.
  pose proof (proj1 (keyDown_printed now which s)) as B1.
  destruct (keyUp_send tx_ok which (keyDown now which s) F) as (S2 & C2 & B2 & L2 & P2).
  { rewrite C1. discriminate. }
  generalize dependent (keyDown now which s). intros s1 L1 C1 S1 B1.
  generalize (keyUp tx_ok which s1). intros s2 S2 C2 B2 L2 P2.
  rewrite C1 in S2, C2, P2. cbn in P2.
  repeat split; congruence.
Qed.

(** X16.  While FN is held, every key tapped goes out as a [learn_ir], in
    the order of the taps, not only the first one: learn mode lasts until FN
    is released.  With at least one key tapped, the release of FN steps no
    brightness. *)
Theorem fn_held_taps_all_send_learn (keys : list (Z * bool * Z)) :
  forall (s : state) (t : Z) (tx_ok : bool),
    Forall (fun k => 0 <= snd k < 256 /\ snd k <> FN_KEY) keys ->
    keys <> [] ->
    let s1 := taps keys (keyDown t FN_KEY s) in
    let s2 := keyUp tx_ok FN_KEY s1 in
    sent (out s2) =
      sent (out s) ++ map (fun k => {| key := snd k; cmd := learn_ir |}) keys /\
    sent (out s2) = sent (out s1) /\
    cmd (cmdData s2) = send_ir /\
    brightnessSteps (out s2) = brightnessSteps (out s) /\
    backlightBrightness s2 = backlightBrightness s.
Proof.
  intros s t tx_ok F N.
  assert (G : forall l s0,
             Forall (fun k => 0 <= snd k < 256 /\ snd k <> FN_KEY) l ->
             cmd (cmdData s0) = learn_ir ->
             sent (out (taps l s0)) =
               sent (out s0) ++ map (fun k => {| key := snd k; cmd := learn_ir |}) l /\
             cmd (cmdData (taps l s0)) = learn_ir /\
             (l <> [] -> key (cmdData (taps l s0)) <> FN_KEY) /\
             brightnessSteps (out (taps l s0)) = brightnessSteps (out s0) /\
             backlightBrightness (taps l s0) = backlightBrightness s0).
  { induction l as [|[[now tx] which] l IH]; intros s0 F0 C0.
    - change (taps [] s0) with s0. cbn [map]. rewrite app_nil_r. repeat split; congruence.
    - inversion F0 as [|? ? Hk F']; subst. cbn [snd] in Hk. destruct Hk as (R & NF).
      rewrite taps_cons.
      destruct (tap_learn now tx which s0 R NF C0) as (S1 & C1 & B1 & L1 & _).
      generalize dependent (tap now tx which s0). intros s1 S1 C1 B1 L1.
      destruct (IH s1 F') as (S2 & C2 & K2 & B2 & L2); [rewrite C1; reflexivity|].
      repeat split; try congruence.
      + rewrite S2, S1, <- app_assoc. reflexivity.
      + intros _. destruct l as [|k l'].
        * change (taps [] s1) with s1. rewrite C1. exact NF.
        * apply K2. discriminate. }
  intros s1 s2.
  destruct (G keys (keyDown t FN_KEY s) F) as (S1 & C1 & K1 & B1 & L1).
  { rewrite keyDown_cmdData. reflexivity. }
  specialize (K1 N). fold s1 in S1, C1, K1, B1, L1.
  rewrite keyDown_sent in S1. rewrite (proj1 (keyDown_printed t FN_KEY s)) in B1.
  rewrite (proj1 (keyDown_frame t FN_KEY s)) in L1.
  destruct (keyUp_revert tx_ok FN_KEY s1 (or_introl eq_refl)) as (S2 & C2 & _ & _ & N2).
  fold s2 in S2, C2, N2. destruct (N2 K1) as (B2 & L2).
  clearbody s1 s2. repeat split; congruence.
Qed.

Lemma fn_held_taps_all_send_learn_witness :
  let s1 := taps [(20, true, 7); (30, true, 8)] (keyDown 10 FN_KEY booted) in
  let s2 := keyUp true FN_KEY s1 in
  sent (out s2) =
    sent (out booted) ++ [{| key := 7; cmd := learn_ir |}; {| key := 8; cmd := learn_ir |}].
Proof.
  refine (proj1 (fn_held_taps_all_send_learn _ booted 10 true _ _)).
  - repeat constructor; cbn; try lia; discriminate.
  - discriminate.
Defined.

(** ** Pairing address *)

(** X17.  Provisioning of the pairing address.  [setBrodcastAddr] is
    [setBrodcastAddrFor] at the constant [IR_BLASTER_MAC]; as shipped the
    constant is all 0xFF and the function does nothing.  For any other
    address that differs from the stored one, the first call stores it next
    to the offset already there, writes the record to the EEPROM once and
    starts the "data saved" pattern; a second call does nothing, so flashing
    the same address again leaves the EEPROM alone. *)
Theorem pairing_address_is_provisioned_once (mac : list Z) (s : state) :
  mac <> [255; 255; 255; 255; 255; 255] ->
  broadcastAddress (edata s) <> mac ->
  let s1 := setBrodcastAddrFor mac s in
  (setBrodcastAddr s = setBrodcastAddrFor IR_BLASTER_MAC s /\ setBrodcastAddr s = s) /\
  edata s1 = {| broadcastAddress := mac; analogOffset := analogOffset (edata s) |} /\
  eepromWrites (out s1) = eepromWrites (out s) ++ [edata s1] /\
  sent (out s1) = sent (out s) /\
  pattern s1 = dataSavedPattern /\
  setBrodcastAddrFor mac s1 = s1.
Proof.
  intros N D. cbv zeta. split; [split; reflexivity|].
  assert (I : forall s0, broadcastAddress (edata s0) = mac -> setBrodcastAddrFor mac s0 = s0).
  { intros s0 E. unfold setBrodcastAddrFor, memcmp_eq. rewrite E.
    destruct (list_eq_dec Z.eq_dec [255; 255; 255; 255; 255; 255] mac); [reflexivity|].
    destruct (list_eq_dec Z.eq_dec mac mac); [reflexivity | congruence]. }
  assert (F : setBrodcastAddrFor mac s =
              backlightDataSaved
                (EEPROM_put
                   (printBrodcastAddress
                      (set_edata {| broadcastAddress := mac;
                                    analogOffset := analogOffset (edata s) |} s)))).
  { unfold setBrodcastAddrFor, memcmp_eq.
    destruct (list_eq_dec Z.eq_dec [255; 255; 255; 255; 255; 255] mac); [congruence|].
    destruct (list_eq_dec Z.eq_dec (broadcastAddress (edata s)) mac); [congruence|].
    reflexivity. }
  assert (P : silent (set_edata {| broadcastAddress := mac;
                                   analogOffset := analogOffset (edata s) |} s)
                     (printBrodcastAddress
                        (set_edata {| broadcastAddress := mac;
                                      analogOffset := analogOffset (edata s) |} s))).
  { unfold printBrodcastAddress.
    eapply silent_trans; [|apply printAddressBytes_silent]. unfold print. silence. }
  destruct P as (l & P & SL & _ & EL).
  assert (E1 : edata (setBrodcastAddrFor mac s) =
               {| broadcastAddress := mac; analogOffset := analogOffset (edata s) |}).
  { rewrite F, P. reflexivity. }
  split; [exact E1|]. split; [|split; [|split]].
  - rewrite E1. rewrite F, P. unfold backlightDataSaved, EEPROM_put. cbn.
    rewrite !eepromWrites_app, EL. cbn. rewrite !app_nil_r. reflexivity.
  - rewrite F, P. unfold backlightDataSaved, EEPROM_put. cbn.
    rewrite !sent_app, SL. cbn. rewrite !app_nil_r. reflexivity.
  - rewrite F. reflexivity.
  - apply I. rewrite E1. reflexivity.
Qed.

Lemma pairing_address_is_provisioned_once_witness :
  let mac := [36; 111; 40; 1; 2; 3] in
  let s1 := setBrodcastAddrFor mac booted in
  edata s1 = {| broadcastAddress := mac; analogOffset := analogOffset (edata booted) |} /\
  eepromWrites (out s1) = eepromWrites (out booted) ++ [edata s1] /\
  sent (out s1) = sent (out booted) /\
  pattern s1 = dataSavedPattern /\
  setBrodcastAddrFor mac s1 = s1.
Proof.
  refine (proj2 (pairing_address_is_provisioned_once [36; 111; 40; 1; 2; 3] booted _ _)).
  - discriminate.
  - vm_compute. discriminate.
Defined.

(** ** Radio set-up and the sleep cycle *)

Lemma addedPeers_app (l1 l2 : list output) :
  addedPeers (l1 ++ l2) = addedPeers l1 ++ addedPeers l2.
Proof.
  induction l1 as [|o l1 IH]; cbn; [reflexivity|].
  destruct o; cbn; rewrite ?IH; reflexivity.
Qed.

Lemma emit_first (o : output) (s : state) : emit o s = set_out (out s ++ [o]) s.
Proof. reflexivity. Qed.

Lemma emit_after (l : list output) (o : output) (s : state) :
  emit o (set_out (out s ++ l) s) = set_out (out s ++ l ++ [o]) s.
Proof. unfold emit. cbn. rewrite app_assoc. reflexivity. Qed.

(** X18.  [initEsp32Now] registers the stored address as the one peer when
    the radio comes up, whether or not the registration is accepted; when the
    radio does not come up it logs the error and registers nothing.  Either
    way it transmits nothing and leaves every variable alone: the sketch
    carries on, and nothing keeps later key releases from calling
    [esp_now_send]. *)
Theorem radio_registers_the_stored_peer (b : boot_inputs) (s : state) :
  let s' := initEsp32Now b s in
  addedPeers (out s') =
    addedPeers (out s) ++ (if esp_now_init_ok b then [broadcastAddress (edata s)] else []) /\
  printed "Error initializing ESP-NOW" (out s') =
    (printed "Error initializing ESP-NOW" (out s)
     + if esp_now_init_ok b then 0 else 1)%nat /\
  printed "Failed to add peer" (out s') =
    (printed "Failed to add peer" (out s)
     + if esp_now_init_ok b && negb (esp_now_add_peer_ok b) then 1 else 0)%nat /\
  sent (out s') = sent (out s) /\
  (exists l, s' = set_out (out s ++ l) s).
Proof.
  cbv zeta.
  assert (E : exists l, initEsp32Now b s = set_out (out s ++ l) s /\
                        sent l = [] /\
                        addedPeers l = (if esp_now_init_ok b
                                        then [broadcastAddress (edata s)] else []) /\
                        printed "Error initializing ESP-NOW" l =
                          (if esp_now_init_ok b then 0 else 1)%nat /\
                        printed "Failed to add peer" l =
                          (if esp_now_init_ok b && negb (esp_now_add_peer_ok b)
                           then 1 else 0)%nat).
  { unfold initEsp32Now, setBrodcastAddr.
    change (memcmp_eq [255; 255; 255; 255; 255; 255] IR_BLASTER_MAC) with true.
    cbn [negb]. cbv zeta. unfold print, printValue.
    destruct (esp_now_init_ok b), (esp_now_add_peer_ok b); cbn [negb andb];
      rewrite (emit_first _ s), !emit_after; cbn [edata set_out];
      eexists; (split; [reflexivity|]); repeat split. }
  destruct E as (l & E & SL & AL & P1 & P2). rewrite E. cbn [out set_out].
  rewrite addedPeers_app, !printed_app, AL, P1, P2.
  split; [reflexivity|]. split; [reflexivity|]. split; [reflexivity|].
  split; [rewrite sent_app, SL; apply app_nil_r|].
  exists l. reflexivity.
Qed.

(** X19.  One sleep cycle.  When the sleep timer reaches its alarm the
    wake pin is armed, the matrix column is held high, and the processor
    stops.  The boot that follows, if the battery is not critical, releases
    the hold and lights the backlight at the brightness the device went to
    sleep with; the boot count goes up by one, and the pending command is
    back to key 0, [send_ir], whatever was pending before the sleep. *)
Theorem sleep_cycle_keeps_brightness (us : Z) (b : boot_inputs) (s : state) :
  talarm_enabled (sleepTimer s) = true ->
  talarm (sleepTimer s) <= tcounter (sleepTimer s) + us ->
  VBAT_CRITICAL <= bootReading b ->
  let s1 := timerElapse us s in
  let s2 := wake b s1 in
  out s1 = out s ++ [Ext0Wakeup WAKE_PIN; RtcGpioHold 14 true;
                     SerialStr "Entering Deep Sleep"; DeepSleepStart] /\
  halted s1 = true /\
  halted s2 = false /\
  backlightBrightness s2 = backlightBrightness s /\
  bootCount s2 = uint32 (bootCount s + 1) /\
  cmdData s2 = {| key := 0; cmd := send_ir |} /\
  exists l, out s2 = l ++ [RtcGpioHold 14 false;
                           LedcWrite (32 * Z.min (uint32 (backlightBrightness s)) 255)].
Proof.
  intros A T C. cbv zeta.
  assert (Q : out (timerElapse us s) =
                out s ++ [Ext0Wakeup WAKE_PIN; RtcGpioHold 14 true;
                          SerialStr "Entering Deep Sleep"; DeepSleepStart] /\
              halted (timerElapse us s) = true /\
              bootCount (timerElapse us s) = bootCount s /\
              backlightBrightness (timerElapse us s) = backlightBrightness s).
  { apply Z.leb_le in T. unfold timerElapse, startDeepSleep, initRtcGpio.
    rewrite A, T. cbn. rewrite <- !app_assoc. repeat split. }
  destruct Q as (O1 & H1 & B1 & L1).
  generalize dependent (timerElapse us s). intros s1 O1 H1 B1 L1.
  unfold wake. rewrite B1, L1.
  destruct (setup_outcome (bootCount s) (backlightBrightness s) b)
    as (H2 & _ & _ & _ & L2 & _ & W2).
  generalize dependent (setup b (startup (bootCount s) (backlightBrightness s))).
  intros s2 H2 L2 W2.
  assert (H3 : halted s2 = false).
  { rewrite H2. apply Z.ltb_ge in C. rewrite C. reflexivity. }
  destruct (W2 H3) as (B2 & _ & C2 & X2).
  repeat split; assumption.
Qed.

Lemma sleep_cycle_keeps_brightness_witness :
  let s := keyUp true FN_KEY (keyDown 100 FN_KEY booted) in
  let s2 := wake example_boot (timerElapse 60000000 s) in
  halted s2 = false /\ backlightBrightness s2 = backlightBrightness s.
Proof.
  refine (let H := sleep_cycle_keeps_brightness 60000000 example_boot
                     (keyUp true FN_KEY (keyDown 100 FN_KEY booted)) _ _ _ in
          conj (proj1 (proj2 (proj2 H))) (proj1 (proj2 (proj2 (proj2 H))))).
  - vm_compute. reflexivity.
  - vm_compute. discriminate.
  - vm_compute. discriminate.
Defined.
